(** * SOAP server: operation dispatch, MTOM/XOP attachment resolution and
    the base64 upload path.

    A shallow embedding of [main.go] (the [/soap] endpoint) and of package
    [handler] ([GetUser], [UploadFile], [UploadFileMTOM] and their helpers).
    Go strings are [string]s (sequences of 8-bit characters), [[]byte] values
    are [list byte], errors are their message strings.  Handlers run in a
    state monad over the server's mutable world (the package-level [userDB]
    and the upload directory).  The log lines the server prints to standard
    output are left out: no response and no state depends on them. *)

From Stdlib Require Import ZArith List String Ascii Lia Bool Btauto.
From Stdlib.Strings Require Import Byte.
From coqutil Require Import Z.bitblast.
From stdpp Require Import base option gmap strings list pretty.

Local Open Scope string_scope.
Local Open Scope list_scope.

(** stdpp keeps [String.append] folded; the proofs below compute with it. *)
#[local] Arguments String.append !s1 s2 : simpl nomatch.

(** ** Go values shared by every package *)

Module Go.

(** A call returning [(T, error)]: [Ok v] is [(v, nil)], [Err msg] an error
    whose [Error()] text is [msg]. *)
Inductive res (A : Type) : Type :=
| Ok (a : A)
| Err (msg : string).
Arguments Ok {A} a.
Arguments Err {A} msg.

Definition bind {A B} (r : res A) (k : A -> res B) : res B :=
  match r with
  | Ok a => k a
  | Err e => Err e
  end.

Definition is_ok {A} (r : res A) : bool :=
  match r with Ok _ => true | Err _ => false end.

(** [string(b)] and [[]byte(s)]. *)
Definition string_of_bytes (b : list byte) : string := string_of_list_byte b.
Definition bytes_of_string (s : string) : list byte := list_byte_of_string s.

(** [strings.HasPrefix(s, p)]. *)
Fixpoint HasPrefix (s p : string) {struct p} : bool :=
  match p, s with
  | EmptyString, _ => true
  | String a p', String b s' => Ascii.eqb a b && HasPrefix s' p'
  | String _ _, EmptyString => false
  end.

(** [strings.Contains(s, substr)]: some suffix of [s] starts with [substr]. *)
Fixpoint Contains (s substr : string) : bool :=
  HasPrefix s substr ||
  match s with
  | EmptyString => false
  | String _ s' => Contains s' substr
  end.

(** Membership of a character in a cutset. *)
Fixpoint inCutset (c : ascii) (cutset : string) : bool :=
  match cutset with
  | EmptyString => false
  | String d cs => Ascii.eqb c d || inCutset c cs
  end.

(** [strings.TrimLeft], [strings.TrimRight] and [strings.Trim]. *)
Fixpoint TrimLeft (s cutset : string) : string :=
  match s with
  | EmptyString => EmptyString
  | String c s' => if inCutset c cutset then TrimLeft s' cutset else s
  end.

Fixpoint TrimRight (s cutset : string) : string :=
  match s with
  | EmptyString => EmptyString
  | String c s' =>
      match TrimRight s' cutset with
      | EmptyString => if inCutset c cutset then EmptyString else String c EmptyString
      | t => String c t
      end
  end.

Definition Trim (s cutset : string) : string :=
  TrimRight (TrimLeft s cutset) cutset.

(** [strings.ReplaceAll] of a non-empty [old] by the empty string:
    occurrences are removed left to right without overlap.  [skip] counts the characters
    of a matched occurrence still to be dropped. *)
Fixpoint removeAll_from (old : string) (skip : nat) (s : string) : string :=
  match s with
  | EmptyString => EmptyString
  | String c s' =>
      match skip with
      | S k => removeAll_from old k s'
      | O =>
          if String.prefix old s
          then removeAll_from old (Nat.pred (String.length old)) s'
          else String c (removeAll_from old 0 s')
      end
  end.

Definition RemoveAll (s old : string) : string := removeAll_from old 0 s.

(** [s[:n]] when [n <= len(s)]. *)
Definition slice_to (s : string) (n : nat) : string := String.substring 0 n s.

(** An [io.Reader]: the data still to come, in the pieces in which the
    transport hands it over, and the error (if any) reported in place of
    [io.EOF] once the pieces are exhausted. *)
Record Reader : Type := mkReader {
  chunks : list (list byte);
  failure : option string
}.

(** Everything the reader still holds. *)
Definition content (r : Reader) : list byte := concat (chunks r).

(** [n, _ := r.Read(buf)] with [len(buf) = size]: at most [size] bytes of
    the first pending piece; the bytes read and the reader afterwards. *)
Definition Read (size : nat) (r : Reader) : list byte * Reader :=
  match chunks r with
  | [] => ([], r)
  | c :: cs =>
      if Nat.leb (length c) size
      then (c, mkReader cs (failure r))
      else (firstn size c, mkReader (skipn size c :: cs) (failure r))
  end.

(** [io.ReadAll(r)]. *)
Definition ReadAll (r : Reader) : res (list byte) :=
  match failure r with
  | None => Ok (content r)
  | Some e => Err e
  end.

(** [strings.NewReader(s)]. *)
Definition NewReader (s : string) : Reader :=
  mkReader (match bytes_of_string s with [] => [] | b => [b] end) None.

End Go.

Export Go.

(** ** [encoding/base64]: [base64.StdEncoding]

    The standard alphabet of RFC 4648 with [=] padding, non-strict, as the
    handlers call it ([DecodeString]) and as the upload clients produce it
    ([EncodeToString]).  Arithmetic is on [uint] values below [2^24], so no
    wrap-around occurs. *)

Module Base64.
Local Open Scope Z_scope.

Definition encodeStd : string :=
  "ABCDEFGHIJKLMNOPQRSTUVWXYZabcdefghijklmnopqrstuvwxyz0123456789+/".

Definition padChar : ascii := "="%char.

Definition Z_of_byte (b : byte) : Z := Z.of_N (Byte.to_N b).

(** The conversion [byte(v)] of an unsigned value: its low eight bits. *)
Definition byte_of_Z (v : Z) : byte :=
  match Byte.of_N (Z.to_N (Z.land v 0xFF)) with
  | Some b => b
  | None => x00
  end.

(** [enc.encode[i]], the [i]-th character of the alphabet. *)
Definition encode (i : Z) : ascii :=
  match String.get (Z.to_nat i) encodeStd with
  | Some c => c
  | None => Ascii.zero
  end.

(** [enc.decodeMap[c]]: the index of [c] in the alphabet, [0xFF] for every
    other character. *)
Fixpoint decodeMap_from (alphabet : string) (i : Z) (c : ascii) : Z :=
  match alphabet with
  | EmptyString => 0xFF
  | String a rest => if Ascii.eqb a c then i else decodeMap_from rest (i + 1) c
  end.

Definition decodeMap (c : ascii) : Z := decodeMap_from encodeStd 0 c.

(** [uint(a)<<16 | uint(b)<<8 | uint(c)]: the value of a group of three
    source bytes. *)
Definition group (a b c : Z) : Z :=
  Z.lor (Z.lor (Z.shiftl a 16) (Z.shiftl b 8)) c.

(** [enc.encode[val>>shift&0x3F]]. *)
Definition sextet (val shift : Z) : ascii :=
  encode (Z.land (Z.shiftr val shift) 0x3F).

(** Modelled from the spec: the encoding half of the inline-binary codec.
    The server only decodes; the encoder runs in the upload clients, which
    are not part of the server sources.  The spec asks for a reversible
    base64-style text encoding of raw bytes; it is taken as
    [Encoding.EncodeToString] of the same standard encoding the handlers
    decode with: three bytes become four characters, a final group of one
    or two bytes is padded. *)
Fixpoint EncodeToString (src : list byte) : string :=
  match src with
  | [] => EmptyString
  | [a] =>
      let val := Z.shiftl (Z_of_byte a) 16 in
      String (sextet val 18) (String (sextet val 12)
        (String padChar (String padChar EmptyString)))
  | [a; b] =>
      let val := Z.lor (Z.shiftl (Z_of_byte a) 16) (Z.shiftl (Z_of_byte b) 8) in
      String (sextet val 18) (String (sextet val 12) (String (sextet val 6)
        (String padChar EmptyString)))
  | a :: b :: c :: rest =>
      let val := group (Z_of_byte a) (Z_of_byte b) (Z_of_byte c) in
      String (sextet val 18) (String (sextet val 12) (String (sextet val 6)
        (String (sextet val 0) (EncodeToString rest))))
  end.

(** [CorruptInputError(n).Error()]. *)
Definition CorruptInputError (n : nat) : string :=
  "illegal base64 data at input byte " +:+ pretty n.

(** The four 6-bit values [dbuf] of one quantum. *)
Definition dbuf : Type := (Z * Z * Z * Z)%type.

Definition dbuf0 : dbuf := (0, 0, 0, 0).

(** [dbuf[j] = out]. *)
Definition set_dbuf (j : nat) (out : Z) (d : dbuf) : dbuf :=
  let '(d0, d1, d2, d3) := d in
  match j with
  | 0%nat => (out, d1, d2, d3)
  | 1%nat => (d0, out, d2, d3)
  | 2%nat => (d0, d1, out, d3)
  | _ => (d0, d1, d2, out)
  end.

(** The tail of [decodeQuantum]: the 24-bit value of the quantum and the
    [dlen - 1] bytes it yields. *)
Definition quantum_bytes (d : dbuf) (dlen : nat) : list byte :=
  let '(d0, d1, d2, d3) := d in
  let val := Z.lor (Z.lor (Z.lor (Z.shiftl d0 18) (Z.shiftl d1 12)) (Z.shiftl d2 6)) d3 in
  let b0 := byte_of_Z (Z.shiftr val 16) in
  let b1 := byte_of_Z (Z.shiftr val 8) in
  let b2 := byte_of_Z (Z.shiftr val 0) in
  match dlen with
  | 4%nat => [b0; b1; b2]
  | 3%nat => [b0; b1]
  | 2%nat => [b0]
  | _ => []
  end.

Definition isNewline (c : ascii) : bool :=
  Ascii.eqb c "010"%char || Ascii.eqb c "013"%char.

(** [for si < len(src) && (src[si] == '\n' || src[si] == '\r') { si++ }]. *)
Fixpoint skipNewlines (src : string) (si : nat) : string * nat :=
  match src with
  | EmptyString => (EmptyString, si)
  | String c rest => if isNewline c then skipNewlines rest (S si) else (src, si)
  end.

(** After the padding of the last quantum only newlines may follow. *)
Definition afterPadding (src : string) (si : nat) (d : dbuf) (j : nat) : res (list byte) :=
  match skipNewlines src si with
  | (EmptyString, _) => Ok (quantum_bytes d j)
  | (_, si') => Err (CorruptInputError si')
  end.

(** [Encoding.Decode] as the iteration of [decodeQuantum]: [src] is the input
    from offset [si] on, [j] the position inside the current quantum and [d]
    its values so far.  (The 4- and 8-character fast paths of the library
    compute the same result on quanta without padding or newlines.) *)
Fixpoint decodeFrom (src : string) (si j : nat) (d : dbuf) : res (list byte) :=
  match src with
  | EmptyString =>
      match j with
      | 0%nat => Ok []
      | _ => Err (CorruptInputError (si - j))
      end
  | String c rest =>
      let si := S si in
      let out := decodeMap c in
      if negb (out =? 0xFF) then
        match j with
        | 3%nat =>
            bind (decodeFrom rest si 0 dbuf0)
                 (fun tl => Ok (quantum_bytes (set_dbuf j out d) 4 ++ tl))
        | _ => decodeFrom rest si (S j) (set_dbuf j out d)
        end
      else if isNewline c then decodeFrom rest si j d
      else if negb (Ascii.eqb c padChar) then Err (CorruptInputError (si - 1))
      else
        match j with
        | 0%nat | 1%nat => Err (CorruptInputError (si - 1))
        | 2%nat =>
            match skipNewlines rest si with
            | (EmptyString, si) => Err (CorruptInputError si)
            | (String c2 rest2, si) =>
                if negb (Ascii.eqb c2 padChar) then Err (CorruptInputError (si - 1))
                else afterPadding rest2 (S si) d j
            end
        | _ => afterPadding rest si d j
        end
  end.

(** [Encoding.DecodeString]: the decoded bytes, or the error (the bytes
    decoded before an error are dropped: no caller uses them). *)
Definition DecodeString (s : string) : res (list byte) := decodeFrom s 0 0 dbuf0.

End Base64.

(** ** [regexp]: the one pattern the handlers compile *)

Module Regexp.

Definition isQuote (c : ascii) : bool :=
  Ascii.eqb c "034"%char || Ascii.eqb c "'"%char.

(** [s] without its prefix [p], when it has this prefix. *)
Fixpoint cutPrefix (p s : string) : option string :=
  match p, s with
  | EmptyString, _ => Some s
  | String a p', String b s' => if Ascii.eqb a b then cutPrefix p' s' else None
  | String _ _, EmptyString => None
  end.

(** The longest run of characters other than quotes at the start of [s], and
    what follows it. *)
Fixpoint spanNonQuote (s : string) : string * string :=
  match s with
  | EmptyString => (EmptyString, EmptyString)
  | String c s' =>
      if isQuote c then (EmptyString, s)
      else let (run, rest) := spanNonQuote s' in (String c run, rest)
  end.

(** A match of the pattern [href=Q cid:(N+) Q] (without the spaces; [Q] a
    double or single quote, [N] any other character) starting at the first
    character of [s]: the quote that opens it and the text of group 1.  The greedy group
    takes the whole run of non-quote characters; the run has to be non-empty
    and followed by a quote (a shorter run would be followed by a non-quote
    character, so backtracking finds nothing else). *)
Definition matchHere (s : string) : option (ascii * string) :=
  match cutPrefix "href=" s with
  | Some (String q s1) =>
      if isQuote q then
        match cutPrefix "cid:" s1 with
        | Some s2 =>
            match spanNonQuote s2 with
            | (String c run, String _ _) => Some (q, String c run)
            | _ => None
            end
        | None => None
        end
      else None
  | _ => None
  end.

(** [re.FindStringSubmatch(s)]: the leftmost match and its group, or [nil]. *)
Fixpoint FindStringSubmatch (s : string) : list string :=
  match matchHere s with
  | Some (q, id) =>
      [String.substring 0 (String.length "href=" + 1 + String.length "cid:" + String.length id + 1) s; id]
  | None =>
      match s with
      | EmptyString => []
      | String _ s' => FindStringSubmatch s'
      end
  end.

End Regexp.

(** ** [net/http] values *)

Module Http.

(** A header map; [Get] returns the empty string for an absent key.  Keys are
    compared after canonicalisation, so the spelling the code uses stands for
    its canonical form. *)
Definition Header : Type := gmap string string.

Definition Header_Get (h : Header) (key : string) : string :=
  match h !! key with
  | Some v => v
  | None => EmptyString
  end.

Record Request : Type := mkRequest {
  Method : string;
  ReqHeader : Header;
  Body : Reader
}.

(** [r.Body = b]. *)
Definition set_Body (r : Request) (b : Reader) : Request :=
  mkRequest (Method r) (ReqHeader r) b.

(** What a handler has done to its [http.ResponseWriter]: the headers set,
    the status written (if any) and the bytes written. *)
Record ResponseWriter : Type := mkResponseWriter {
  RespHeader : Header;
  Status : option nat;
  Written : string
}.

Definition newResponseWriter : ResponseWriter :=
  mkResponseWriter ∅ None EmptyString.

(** [w.Header().Set(key, value)]. *)
Definition Header_Set (w : ResponseWriter) (key value : string) : ResponseWriter :=
  mkResponseWriter (<[key := value]> (RespHeader w)) (Status w) (Written w).

(** [w.Write([]byte(s))]: the first write fixes the status to 200. *)
Definition w_Write (w : ResponseWriter) (s : string) : ResponseWriter :=
  mkResponseWriter (RespHeader w)
    (match Status w with Some c => Some c | None => Some 200 end)
    (Written w ++ s).

(** [w.WriteHeader(code)]. *)
Definition WriteHeader (w : ResponseWriter) (code : nat) : ResponseWriter :=
  mkResponseWriter (RespHeader w)
    (match Status w with Some c => Some c | None => Some code end)
    (Written w).

Definition nl : string := String "010"%char EmptyString.

(** [http.Error(w, msg, code)]. *)
Definition Error (w : ResponseWriter) (msg : string) (code : nat) : ResponseWriter :=
  let w := Header_Set w "Content-Type" "text/plain; charset=utf-8" in
  let w := Header_Set w "X-Content-Type-Options" "nosniff" in
  w_Write (WriteHeader w code) (msg ++ nl).

Definition MethodPost : string := "POST".
Definition StatusMethodNotAllowed : nat := 405.

End Http.

Export Http.

(** ** The world the handlers act on *)

(** [handler.User]. *)
Record User : Type := mkUser {
  User_ID : string;
  User_Name : string;
  User_Email : string;
  User_CreatedAt : string
}.

(** The mutable state shared by all requests: the package-level variable
    [userDB] and the file system below the upload directory. *)
Record World : Type := mkWorld {
  userDB : gmap string User;
  dirs : gset string;
  files : gmap string (list byte)
}.

(** What the environment answers during one request: the identifier drawn by
    [uuid.New()] and the errors (if any) of [os.MkdirAll] and [os.WriteFile]. *)
Record Env : Type := mkEnv {
  uuid_New : string;
  MkdirAll_error : option string;
  WriteFile_error : option string
}.

(** [os.MkdirAll(path, 0755)]. *)
Definition MkdirAll (env : Env) (path : string) (s : World) : option string * World :=
  match MkdirAll_error env with
  | Some e => (Some e, s)
  | None => (None, mkWorld (userDB s) ({[path]} ∪ dirs s) (files s))
  end.

(** [os.WriteFile(path, data, 0644)].  A failed call is taken to leave the
    files as they were; the real call can also fail after it has created
    or truncated the file. *)
Definition WriteFile (env : Env) (path : string) (data : list byte) (s : World)
  : option string * World :=
  match WriteFile_error env with
  | Some e => (Some e, s)
  | None => (None, mkWorld (userDB s) (dirs s) (<[path := data]> (files s)))
  end.

(** The mock user database [userDB] starts with. *)
Definition initial_userDB : gmap string User :=
  <["1" := mkUser "1" "홍길동" "hong@example.com" "2024-01-01"]>
  (<["2" := mkUser "2" "김철수" "kim@example.com" "2024-01-15"]>
  (<["3" := mkUser "3" "이영희" "lee@example.com" "2024-02-01"]> ∅)).

Definition initial_World : World := mkWorld initial_userDB ∅ ∅.

(** ** The library calls of package [handler]

    [encoding/xml], [mime], [mime/multipart] and [path/filepath] are taken as
    given: one decoder per envelope shape (what [Decode] and [Unmarshal]
    store in the request struct, or the error), the parse of a media type,
    the parts a multipart reader yields, and path joining. *)

Record GetUserRequest : Type := mkGetUserRequest {
  GetUserRequest_ID : string
}.

Record UploadFileRequest : Type := mkUploadFileRequest {
  UploadFileRequest_FileName : string;
  UploadFileRequest_FileData : string
}.

Record UploadFileMTOMRequest : Type := mkUploadFileMTOMRequest {
  UploadFileMTOMRequest_FileName : string;
  UploadFileMTOMRequest_FileData : string
}.

(** A [*multipart.Part]: its MIME header and the outcome of [io.ReadAll]. *)
Record Part : Type := mkPart {
  PartHeader : Header;
  PartBody : res (list byte)
}.

Class Libs : Type := {
  (** [xml.NewDecoder(body).Decode(&soapEnvelope)], per envelope shape *)
  xml_Decode_GetUser : Reader -> res GetUserRequest;
  xml_Decode_UploadFile : Reader -> res UploadFileRequest;
  xml_Decode_UploadFileMTOM : Reader -> res UploadFileMTOMRequest;
  (** [mime.ParseMediaType(v)]: media type and parameters *)
  mime_ParseMediaType : string -> res (string * gmap string string);
  (** [multipart.NewReader(bytes.NewReader(body), boundary)]: the parts
      [NextPart] returns in order, then [io.EOF] ([None]) or an error *)
  multipart_NewReader : list byte -> string -> list Part * option string;
  (** [filepath.Join(dir, name)] *)
  filepath_Join : string -> string -> string
}.

(** [xml.Unmarshal([]byte(s), &v)] is [Decode] on a reader over the bytes. *)
Definition xml_Unmarshal_UploadFileMTOM `{Libs} (s : string) : res UploadFileMTOMRequest :=
  xml_Decode_UploadFileMTOM (NewReader s).

(** ** Package [handler] *)

Module Handler.

Definition dq : string := String "034"%char EmptyString.

Definition Handler : Type := ResponseWriter -> Request -> World -> ResponseWriter * World.

Record GetUserResponse : Type := mkGetUserResponse {
  GetUserResponse_ID : string;
  GetUserResponse_Name : string;
  GetUserResponse_Email : string;
  GetUserResponse_CreatedAt : string
}.

Record UploadFileResponse : Type := mkUploadFileResponse {
  UploadFileResponse_FileID : string;
  UploadFileResponse_FileName : string;
  UploadFileResponse_Size : nat;
  UploadFileResponse_Path : string
}.

Record UploadFileMTOMResponse : Type := mkUploadFileMTOMResponse {
  UploadFileMTOMResponse_FileID : string;
  UploadFileMTOMResponse_FileName : string;
  UploadFileMTOMResponse_Size : nat;
  UploadFileMTOMResponse_Path : string
}.

(** The dynamic types [marshalXML] switches on. *)
Inductive ResponseBody : Type :=
| BodyGetUser (t : GetUserResponse)
| BodyUploadFile (t : UploadFileResponse)
| BodyUploadFileMTOM (t : UploadFileMTOMResponse).

(** [MultipartPart]: a parsed MIME part. *)
Record MultipartPart : Type := mkMultipartPart {
  ContentID : string;
  ContentType : string;
  Data : list byte
}.

Definition xmlDeclaration : string :=
  "<?xml version=" +:+ dq +:+ "1.0" +:+ dq +:+ " encoding=" +:+ dq +:+ "UTF-8" +:+ dq +:+ "?>".

Definition envelopeOpen : string :=
  "<soap:Envelope xmlns:soap=" +:+ dq +:+ "http://schemas.xmlsoap.org/soap/envelope/" +:+ dq +:+ ">".

(** The text [sendSOAPError] formats. *)
Definition faultEnvelope (faultCode faultString detail : string) : string :=
  String.concat nl
    [ xmlDeclaration;
      envelopeOpen;
      "    <soap:Body>";
      "        <soap:Fault>";
      "            <faultcode>" +:+ faultCode +:+ "</faultcode>";
      "            <faultstring>" +:+ faultString +:+ "</faultstring>";
      "            <detail>" +:+ detail +:+ "</detail>";
      "        </soap:Fault>";
      "    </soap:Body>";
      "</soap:Envelope>" ].

Definition sendSOAPError (w : ResponseWriter) (faultCode faultString detail : string)
  : ResponseWriter :=
  let w := Header_Set w "Content-Type" "text/xml; charset=utf-8" in
  w_Write w (faultEnvelope faultCode faultString detail).

Definition fieldSep : string := nl +:+ "        ".

Definition marshalXML (v : ResponseBody) : string :=
  match v with
  | BodyGetUser t =>
      ("<id>" +:+ GetUserResponse_ID t +:+ "</id>" +:+ fieldSep)
      +:+ ("<name>" +:+ GetUserResponse_Name t +:+ "</name>" +:+ fieldSep)
      +:+ ("<email>" +:+ GetUserResponse_Email t +:+ "</email>" +:+ fieldSep)
      +:+ ("<createdAt>" +:+ GetUserResponse_CreatedAt t +:+ "</createdAt>")
  | BodyUploadFile t =>
      ("<fileId>" +:+ UploadFileResponse_FileID t +:+ "</fileId>" +:+ fieldSep)
      +:+ ("<fileName>" +:+ UploadFileResponse_FileName t +:+ "</fileName>" +:+ fieldSep)
      +:+ ("<size>" +:+ pretty (UploadFileResponse_Size t) +:+ "</size>" +:+ fieldSep)
      +:+ ("<path>" +:+ UploadFileResponse_Path t +:+ "</path>")
  | BodyUploadFileMTOM t =>
      ("<fileId>" +:+ UploadFileMTOMResponse_FileID t +:+ "</fileId>" +:+ fieldSep)
      +:+ ("<fileName>" +:+ UploadFileMTOMResponse_FileName t +:+ "</fileName>" +:+ fieldSep)
      +:+ ("<size>" +:+ pretty (UploadFileMTOMResponse_Size t) +:+ "</size>" +:+ fieldSep)
      +:+ ("<path>" +:+ UploadFileMTOMResponse_Path t +:+ "</path>")
  end.

Definition sendSOAPResponse (w : ResponseWriter) (elementName : string) (body : ResponseBody)
  : ResponseWriter :=
  let w := Header_Set w "Content-Type" "text/xml; charset=utf-8" in
  w_Write w
    (String.concat nl
       [ xmlDeclaration;
         envelopeOpen;
         "    <soap:Body>";
         "        <" +:+ elementName +:+ " xmlns=" +:+ dq +:+ "http://example.com/soap/user" +:+ dq +:+ ">";
         marshalXML body;
         "        </" +:+ elementName +:+ ">";
         "    </soap:Body>";
         "</soap:Envelope>" ]).

(** [GetUser]: decode the envelope, look the identifier up in [userDB]. *)
Definition GetUser `{Libs} : Handler := fun w r s =>
  match xml_Decode_GetUser (Body r) with
  | Err e => (sendSOAPError w "Client" "Invalid XML format" e, s)
  | Ok req =>
      let userID := GetUserRequest_ID req in
      match userDB s !! userID with
      | None =>
          (sendSOAPError w "Client" "User not found"
             ("User with ID " +:+ userID +:+ " not found"), s)
      | Some user =>
          let response :=
            mkGetUserResponse (User_ID user) (User_Name user) (User_Email user)
                              (User_CreatedAt user) in
          (sendSOAPResponse w "GetUserResponse" (BodyGetUser response), s)
      end
  end.

Definition sanitizeFileName (name : string) : string :=
  let name := RemoveAll name ".." in
  let name := RemoveAll name "/" in
  let name := RemoveAll name "\" in
  let name := RemoveAll name (String Ascii.zero EmptyString) in
  if Nat.ltb 255 (String.length name) then slice_to name 255 else name.

(** The common tail of both upload handlers: create the directory, write the
    file, answer.  [respond] builds the operation's response body. *)
Definition storeUpload `{Libs} (env : Env) (uploadDir : string)
    (elementName : string) (respond : string -> string -> nat -> string -> ResponseBody)
    (fileName : string) (data : list byte) (w : ResponseWriter) (s : World)
  : ResponseWriter * World :=
  let fileID := uuid_New env in
  match MkdirAll env uploadDir s with
  | (Some e, s) =>
      (sendSOAPError w "Server" "Internal error"
         ("Failed to create upload directory: " +:+ e), s)
  | (None, s) =>
      let safeFileName := sanitizeFileName fileName in
      let uniqueFileName := fileID +:+ "_" +:+ safeFileName in
      let filePath := filepath_Join uploadDir uniqueFileName in
      match WriteFile env filePath data s with
      | (Some e, s) =>
          (sendSOAPError w "Server" "Internal error" ("Failed to save file: " +:+ e), s)
      | (None, s) =>
          let fileSize := length data in
          (sendSOAPResponse w elementName
             (respond fileID fileName fileSize ("/uploads/" +:+ uniqueFileName)), s)
      end
  end.

(** [UploadFile(uploadDir)]: the base64 upload. *)
Definition UploadFile `{Libs} (env : Env) (uploadDir : string) : Handler := fun w r s =>
  match xml_Decode_UploadFile (Body r) with
  | Err e => (sendSOAPError w "Client" "Invalid XML format" e, s)
  | Ok req =>
      let fileName := UploadFileRequest_FileName req in
      let fileData := UploadFileRequest_FileData req in
      if String.eqb fileName EmptyString then
        (sendSOAPError w "Client" "Invalid input" "File name is required", s)
      else if String.eqb fileData EmptyString then
        (sendSOAPError w "Client" "Invalid input" "File data is required", s)
      else
        match Base64.DecodeString fileData with
        | Err e =>
            (sendSOAPError w "Client" "Invalid file data"
               ("Failed to decode base64 data: " +:+ e), s)
        | Ok decodedData =>
            storeUpload env uploadDir "UploadFileResponse"
              (fun id name size path => BodyUploadFile (mkUploadFileResponse id name size path))
              fileName decodedData w s
        end
  end.

(** [parseMTOMSOAPEnvelope]: the file name and the XOP references of the
    SOAP part. *)
Definition parseMTOMSOAPEnvelope `{Libs} (soapEnvelope : string) : res (string * list string) :=
  match xml_Unmarshal_UploadFileMTOM soapEnvelope with
  | Err e => Err ("XML parse error: " +:+ e)
  | Ok envelope =>
      let fileName := UploadFileMTOMRequest_FileName envelope in
      let fileDataElement := UploadFileMTOMRequest_FileData envelope in
      let xopRefs :=
        if Contains fileDataElement "<xop:Include" || Contains fileDataElement "Include"
        then
          match Regexp.FindStringSubmatch fileDataElement with
          | _ :: m1 :: _ => [m1]
          | _ => []
          end
        else [] in
      Ok (fileName, xopRefs)
  end.

(** The test on a part's content type that makes it the SOAP envelope part. *)
Definition isSOAPPart (partContentType : string) : bool :=
  Contains partContentType "application/xop+xml"
  || Contains partContentType "text/xml"
  || Contains partContentType "application/soap+xml".

(** The loop over [mr.NextPart()]: [parts] and [soapPart] are the variables
    of the same names, [next] what the reader still yields and [final] the
    error that ends the stream ([None] for [io.EOF]). *)
Fixpoint readParts (next : list Part) (final : option string)
    (parts : list MultipartPart) (soapPart : string)
  : res (list MultipartPart * string) :=
  match next with
  | [] =>
      match final with
      | None => Ok (parts, soapPart)
      | Some e => Err ("failed to read multipart part: " +:+ e)
      end
  | part :: next =>
      let contentID := Header_Get (PartHeader part) "Content-ID" in
      let contentID := Trim contentID "<>" in
      let partContentType := Header_Get (PartHeader part) "Content-Type" in
      match PartBody part with
      | Err e => Err ("failed to read part data: " +:+ e)
      | Ok data =>
          if isSOAPPart partContentType
          then readParts next final parts (string_of_bytes data)
          else readParts next final
                 (parts ++ [mkMultipartPart contentID partContentType data]) soapPart
      end
  end.

(** The inner loop of the resolution: the data of the first part whose
    [ContentID] is [xopRef]. *)
Fixpoint findPart (parts : list MultipartPart) (xopRef : string) : option (list byte) :=
  match parts with
  | [] => None
  | part :: parts =>
      if String.eqb (ContentID part) xopRef then Some (Data part)
      else findPart parts xopRef
  end.

(** The outer loop: every reference has to be found; [fileData] ends up as
    the data of the last reference. *)
Fixpoint resolveRefs (xopRefs : list string) (parts : list MultipartPart)
    (fileData : list byte) : res (list byte) :=
  match xopRefs with
  | [] => Ok fileData
  | xopRef :: xopRefs =>
      match findPart parts xopRef with
      | Some data => resolveRefs xopRefs parts data
      | None => Err ("XOP reference not found: " +:+ xopRef)
      end
  end.

(** [parseMTOMRequest]: file name and file data of a multipart/related
    request. *)
Definition parseMTOMRequest `{Libs} (r : Request) : res (string * list byte) :=
  let contentType := Header_Get (ReqHeader r) "Content-Type" in
  match mime_ParseMediaType contentType with
  | Err e => Err ("failed to parse content-type: " +:+ e)
  | Ok (_, params) =>
      match params !! "boundary" with
      | None => Err "boundary not found in content-type"
      | Some boundary =>
          match ReadAll (Body r) with
          | Err e => Err ("failed to read request body: " +:+ e)
          | Ok body =>
              let (next, final) := multipart_NewReader body boundary in
              match readParts next final [] EmptyString with
              | Err e => Err e
              | Ok (parts, soapPart) =>
                  match parseMTOMSOAPEnvelope soapPart with
                  | Err e => Err ("failed to parse SOAP envelope: " +:+ e)
                  | Ok (fileName, xopRefs) =>
                      match resolveRefs xopRefs parts [] with
                      | Err e => Err e
                      | Ok fileData =>
                          if Nat.eqb (length fileData) 0
                          then Err "no file data found in MTOM request"
                          else Ok (fileName, fileData)
                      end
                  end
              end
          end
      end
  end.

(** [parseBase64SOAPRequest]: a plain SOAP request with base64 file data. *)
Definition parseBase64SOAPRequest `{Libs} (r : Request) : res (string * list byte) :=
  match xml_Decode_UploadFileMTOM (Body r) with
  | Err e => Err ("XML decode error: " +:+ e)
  | Ok req =>
      let fileName := UploadFileMTOMRequest_FileName req in
      let fileData := UploadFileMTOMRequest_FileData req in
      match Base64.DecodeString fileData with
      | Err e => Err ("base64 decode error: " +:+ e)
      | Ok decodedData => Ok (fileName, decodedData)
      end
  end.

(** [UploadFileMTOM(uploadDir)]: the upload with MTOM/XOP support. *)
Definition UploadFileMTOM `{Libs} (env : Env) (uploadDir : string) : Handler := fun w r s =>
  let contentType := Header_Get (ReqHeader r) "Content-Type" in
  let parsed :=
    if HasPrefix contentType "multipart/related"
    then match parseMTOMRequest r with
         | Err e => inl (sendSOAPError w "Client" "Invalid MTOM request" e)
         | Ok v => inr v
         end
    else match parseBase64SOAPRequest r with
         | Err e => inl (sendSOAPError w "Client" "Invalid SOAP request" e)
         | Ok v => inr v
         end in
  match parsed with
  | inl w => (w, s)
  | inr (fileName, fileData) =>
      if String.eqb fileName EmptyString then
        (sendSOAPError w "Client" "Invalid input" "File name is required", s)
      else if Nat.eqb (length fileData) 0 then
        (sendSOAPError w "Client" "Invalid input" "File data is required", s)
      else
        storeUpload env uploadDir "UploadFileMTOMResponse"
          (fun id name size path =>
             BodyUploadFileMTOM (mkUploadFileMTOMResponse id name size path))
          fileName fileData w s
  end.

End Handler.

(** ** Package [main]: the [/soap] endpoint *)

Module Main.

Definition stripQuotes (s : string) : string :=
  if Nat.leb 2 (String.length s)
     && (match String.get 0 s with Some c => Ascii.eqb c "034"%char | None => false end)
     && (match String.get (String.length s - 1) s with
         | Some c => Ascii.eqb c "034"%char
         | None => false
         end)
  then String.substring 1 (String.length s - 2) s
  else s.

(** [main] has its own copy of [sendSOAPError], identical to the handlers'. *)
Definition sendSOAPError (w : ResponseWriter) (faultCode faultString detail : string)
  : ResponseWriter :=
  let w := Header_Set w "Content-Type" "text/xml; charset=utf-8" in
  w_Write w (Handler.faultEnvelope faultCode faultString detail).

(** [newReadCloser(s)]. *)
Definition newReadCloser (s : string) : Reader := NewReader s.

Definition actionGetUser : string := "http://example.com/soap/user/GetUser".
Definition actionUploadFile : string := "http://example.com/soap/user/UploadFile".
Definition actionUploadFileMTOM : string := "http://example.com/soap/user/UploadFileMTOM".

(** Where the endpoint's control flow ends for a request: a handler called
    with the request as it is at the call, or one of the two direct answers. *)
Inductive Route : Type :=
| MethodNotAllowed
| CallGetUser (r : Request)
| CallUploadFile (r : Request)
| CallUploadFileMTOM (r : Request)
| UnknownOperation.

(** The fallback of the endpoint: peek at the first 512 bytes of the body. *)
Definition sniff (r : Request) : Route :=
  let body := Body r in
  let (buf, _) := Read 512 body in
  let bufStr := string_of_bytes buf in
  if Contains bufStr "GetUserRequest" then
    CallGetUser (set_Body r (newReadCloser bufStr))
  else if Contains bufStr "UploadFileMTOMRequest" then
    CallUploadFileMTOM (set_Body r (newReadCloser bufStr))
  else if Contains bufStr "UploadFileRequest" then
    CallUploadFile (set_Body r (newReadCloser bufStr))
  else UnknownOperation.

(** The routing decisions of the function registered for [/soap]. *)
Definition route (r : Request) : Route :=
  if negb (String.eqb (Method r) MethodPost) then MethodNotAllowed
  else
    let soapAction := Header_Get (ReqHeader r) "SOAPAction" in
    if negb (String.eqb soapAction EmptyString) then
      let soapAction := stripQuotes soapAction in
      if String.eqb soapAction actionGetUser then CallGetUser r
      else if String.eqb soapAction actionUploadFile then CallUploadFile r
      else if String.eqb soapAction actionUploadFileMTOM then CallUploadFileMTOM r
      else sniff r
    else sniff r.

Definition uploadDir : string := "./uploads".

(** The function registered for [/soap]. *)
Definition soapEndpoint `{Libs} (env : Env) : Handler.Handler := fun w r s =>
  match route r with
  | MethodNotAllowed =>
      (Error w "Method not allowed. Use POST." StatusMethodNotAllowed, s)
  | CallGetUser r => Handler.GetUser w r s
  | CallUploadFile r => Handler.UploadFile env uploadDir w r s
  | CallUploadFileMTOM r => Handler.UploadFileMTOM env uploadDir w r s
  | UnknownOperation =>
      (sendSOAPError w "Client" "Unknown operation"
         "Could not determine SOAP operation from request", s)
  end.

(** The server: requests handled one after the other, each with what the
    environment answers during it; the responses, and the world at the end. *)
Fixpoint serve `{Libs} (reqs : list (Env * Request)) (s : World)
  : list ResponseWriter * World :=
  match reqs with
  | [] => ([], s)
  | (env, r) :: reqs =>
      let (w, s) := soapEndpoint env newResponseWriter r s in
      let (ws, s) := serve reqs s in
      (w :: ws, s)
  end.

End Main.

(** ** Specification-level notions *)

(** The attachment parts of a multipart message, in original part order: the
    parts whose content type is not of the SOAP/XOP family, with the angle
    brackets of their identifier removed. *)
Fixpoint attachments (next : list Part) : list Handler.MultipartPart :=
  match next with
  | [] => []
  | part :: next =>
      let partContentType := Header_Get (PartHeader part) "Content-Type" in
      match PartBody part with
      | Ok data =>
          if Handler.isSOAPPart partContentType then attachments next
          else Handler.mkMultipartPart
                 (Trim (Header_Get (PartHeader part) "Content-ID") "<>")
                 partContentType data :: attachments next
      | Err _ => attachments next
      end
  end.

(** The text of a reference-include marker: [href=], a quote, [cid:], the
    identifier and a quote. *)
Definition marker (q : ascii) (id : string) (q' : ascii) : string :=
  "href=" +:+ String q ("cid:" +:+ id +:+ String q' EmptyString).

(** No character of [s] is a quote. *)
Fixpoint quoteFree (s : string) : bool :=
  match s with
  | EmptyString => true
  | String c s' => negb (Regexp.isQuote c) && quoteFree s'
  end.

(** The three operations of the endpoint, the action identifier of each and
    the call of its handler. *)
Inductive Operation : Type := OpGetUser | OpUploadFile | OpUploadFileMTOM.

Definition action (op : Operation) : string :=
  match op with
  | OpGetUser => Main.actionGetUser
  | OpUploadFile => Main.actionUploadFile
  | OpUploadFileMTOM => Main.actionUploadFileMTOM
  end.

Definition call (op : Operation) (r : Request) : Main.Route :=
  match op with
  | OpGetUser => Main.CallGetUser r
  | OpUploadFile => Main.CallUploadFile r
  | OpUploadFileMTOM => Main.CallUploadFileMTOM r
  end.

(** The peeked prefix of the body contains one of the three request markers. *)
Definition anyMarker (bufStr : string) : bool :=
  Contains bufStr "GetUserRequest"
  || Contains bufStr "UploadFileMTOMRequest"
  || Contains bufStr "UploadFileRequest".

(** The multipart parser accepts the request [r]: the boundary is found, the
    body is read, the reader yields the parts [next] and then [io.EOF], and
    the loop of [parseMTOMRequest] over them ends with the attachment parts
    [parts] and the control text [soapPart]. *)
Definition parsesTo `{Libs} (r : Request) (next : list Part)
    (parts : list Handler.MultipartPart) (soapPart : string) : Prop :=
  exists mediatype params boundary body final,
    mime_ParseMediaType (Header_Get (ReqHeader r) "Content-Type") = Ok (mediatype, params)
    /\ params !! "boundary" = Some boundary
    /\ ReadAll (Body r) = Ok body
    /\ multipart_NewReader body boundary = (next, final)
    /\ Handler.readParts next final [] EmptyString = Ok (parts, soapPart).

(** ** Sample requests

    For the examples the answers of the library calls are fixed by hand: the
    XML decoders fail with [EOF] on an empty document and otherwise return
    the given request; the multipart reader yields the given parts. *)

Module Sample.
Import Handler Main.

Definition libs (id : string) (fileName fileData : string) (parts : list Part) : Libs := {|
  xml_Decode_GetUser rd :=
    match content rd with
    | [] => Err "EOF"
    | _ => Ok (mkGetUserRequest id)
    end;
  xml_Decode_UploadFile rd :=
    match content rd with
    | [] => Err "EOF"
    | _ => Ok (mkUploadFileRequest fileName fileData)
    end;
  xml_Decode_UploadFileMTOM rd :=
    match content rd with
    | [] => Err "EOF"
    | _ => Ok (mkUploadFileMTOMRequest fileName fileData)
    end;
  mime_ParseMediaType v :=
    if HasPrefix v "multipart/related; boundary=MIME_boundary"
    then Ok ("multipart/related", {[ "boundary" := "MIME_boundary" ]})
    else Ok (v, ∅);
  multipart_NewReader _ _ := (parts, None);
  filepath_Join dir name := dir +:+ "/" +:+ name
|}.

Definition env : Env := mkEnv "00000000-0000-4000-8000-000000000000" None None.

Definition post (headers : list (string * string)) (body : string) : Request :=
  mkRequest "POST" (list_to_map headers) (NewReader body).

Definition mtomHeaders : list (string * string) :=
  [ ("SOAPAction", actionUploadFileMTOM);
    ("Content-Type", "multipart/related; boundary=MIME_boundary; type=" +:+ dq +:+ "application/xop+xml" +:+ dq) ].

Definition part (contentID contentType : string) (data : string) : Part :=
  mkPart (list_to_map [("Content-ID", contentID); ("Content-Type", contentType)])
         (Ok (bytes_of_string data)).

Definition envelopeXML (inner : string) : string :=
  "<soap:Envelope xmlns:soap=" +:+ dq +:+ "http://schemas.xmlsoap.org/soap/envelope/" +:+ dq
  +:+ "><soap:Body>" +:+ inner +:+ "</soap:Body></soap:Envelope>".

Definition userNS : string := " xmlns=" +:+ dq +:+ "http://example.com/soap/user" +:+ dq.

Definition getUserXML (id : string) : string :=
  envelopeXML ("<GetUserRequest" +:+ userNS +:+ "><id>" +:+ id +:+ "</id></GetUserRequest>").

Definition uploadMTOMXML (fileName fileData : string) : string :=
  envelopeXML ("<UploadFileMTOMRequest" +:+ userNS +:+ "><fileName>" +:+ fileName
               +:+ "</fileName><fileData>" +:+ fileData +:+ "</fileData></UploadFileMTOMRequest>").

(** A [GetUser] envelope with 600 blanks before the [id] element: longer
    than the peek, with the marker inside the peek. *)
Definition longGetUserBody : string :=
  envelopeXML ("<GetUserRequest" +:+ userNS +:+ ">" +:+ string_of_bytes (repeat " "%byte 600)
               +:+ "<id>1</id></GetUserRequest>").

(** A multipart body stands for itself: the sample reader ignores it. *)
Definition multipartBody : string := "--MIME_boundary".

(** The escaped text of an include element naming [id]. *)
Definition includeText (id : string) : string :=
  "<xop:Include " +:+ marker "034" id "034" +:+ "/>".

End Sample.

(** ** Further specification-level notions *)

(** [s] without its line feeds and carriage returns. *)
Fixpoint stripNewlines (s : string) : string :=
  match s with
  | EmptyString => EmptyString
  | String c s' =>
      if Base64.isNewline c then stripNewlines s' else String c (stripNewlines s')
  end.

(** The path an upload of [fileName] is stored under during a request. *)
Definition storedPath `{Libs} (env : Env) (uploadDir fileName : string) : string :=
  filepath_Join uploadDir (uuid_New env +:+ "_" +:+ Handler.sanitizeFileName fileName).

(** The files after a request that may have stored some [data] under some
    [name] satisfying [P]: either they are as before, or the file system
    reported no error and exactly that one file was written. *)
Definition wroteAtMost `{Libs} (env : Env) (dir : string) (s s' : World)
    (P : string -> list byte -> Prop) : Prop :=
  files s' = files s
  \/ (MkdirAll_error env = None /\ WriteFile_error env = None
      /\ exists name data,
           P name data /\ files s' = <[storedPath env dir name := data]> (files s)).

(** The libraries [L] with a multipart reader that yields the same parts but
    ends with the error [e] instead of [io.EOF], as on a message cut off
    before its closing boundary. *)
Definition cutOff (L : Libs) (e : string) : Libs := {|
  xml_Decode_GetUser := @xml_Decode_GetUser L;
  xml_Decode_UploadFile := @xml_Decode_UploadFile L;
  xml_Decode_UploadFileMTOM := @xml_Decode_UploadFileMTOM L;
  mime_ParseMediaType := @mime_ParseMediaType L;
  multipart_NewReader body boundary := (fst (@multipart_NewReader L body boundary), Some e);
  filepath_Join := @filepath_Join L
|}.

(** The value of a result, forgetting which error it is. *)
Definition value {A} (r : res A) : option A :=
  match r with
  | Ok a => Some a
  | Err _ => None
  end.

(** Every character of [s] satisfies [P]. *)
Fixpoint allChars (P : ascii -> bool) (s : string) : bool :=
  match s with
  | EmptyString => true
  | String c s' => P c && allChars P s'
  end.

(** The characters base64 text may consist of: the alphabet, the padding
    character and the two newline characters. *)
Definition base64Char (c : ascii) : bool :=
  negb (Z.eqb (Base64.decodeMap c) 0xFF) || Ascii.eqb c Base64.padChar
  || Base64.isNewline c.

(** The control part [soapPart] decodes to the file name [fileName] and to a
    [fileData] text that mentions an include and whose first reference
    marker names [X].  (The decoder keeps the character data of the element
    only: the text holds the marker when the markup is sent as character
    data, escaped or in a CDATA section, and is empty when the include is a
    child element.) *)
Definition textReferences `{Libs} (soapPart fileName X : string) : Prop :=
  exists envelope pre q q' rest,
    xml_Unmarshal_UploadFileMTOM soapPart = Ok envelope
    /\ UploadFileMTOMRequest_FileName envelope = fileName
    /\ UploadFileMTOMRequest_FileData envelope = pre +:+ marker q X q' +:+ rest
    /\ Contains (UploadFileMTOMRequest_FileData envelope) "Include" = true
    /\ Contains pre "href=" = false
    /\ Regexp.isQuote q = true /\ Regexp.isQuote q' = true
    /\ X <> EmptyString /\ quoteFree X = true.

(** ** The base64 codec *)

Module Base64Facts.
Import Base64.
Local Open Scope Z_scope.

(** The test vectors of RFC 4648, section 10. *)
Example encode_rfc4648 :
  map (fun s => EncodeToString (bytes_of_string s))
      [EmptyString; "f"; "fo"; "foo"; "foob"; "fooba"; "foobar"]
  = [EmptyString; "Zg=="; "Zm8="; "Zm9v"; "Zm9vYg=="; "Zm9vYmE="; "Zm9vYmFy"].
Proof. reflexivity. Qed.

Example decode_rfc4648 :
  map DecodeString [EmptyString; "Zg=="; "Zm8="; "Zm9v"; "Zm9vYg=="; "Zm9vYmE="; "Zm9vYmFy"]
  = map (fun s => Ok (bytes_of_string s))
        [EmptyString; "f"; "fo"; "foo"; "foob"; "fooba"; "foobar"].
Proof. reflexivity. Qed.

(** Missing padding, a character outside the alphabet, data after the
    padding; newlines are skipped. *)
Example decode_errors :
  DecodeString "aGVsbG8" = Err "illegal base64 data at input byte 4"
  /\ DecodeString "aGV*bG8=" = Err "illegal base64 data at input byte 3"
  /\ DecodeString "aGVsbG8=x" = Err "illegal base64 data at input byte 8"
  /\ DecodeString ("aGVs" +:+ nl +:+ "bG8=") = Ok (bytes_of_string "hello").
Proof. repeat split; reflexivity. Qed.

Lemma Z_of_byte_range (b : byte) : 0 <= Z_of_byte b < 256.
Proof.
  unfold Z_of_byte. pose proof (Byte.to_N_bounded b) as H.
  split; [apply N2Z.is_nonneg|].
  change 256 with (Z.of_N 256). apply N2Z.inj_lt. lia.
Qed.

Lemma Z_of_byte_high (b : byte) (i : Z) : 8 <= i -> Z.testbit (Z_of_byte b) i = false.
Proof.
  intros Hi. pose proof (Z_of_byte_range b) as Hb.
  destruct (Z.eq_dec (Z_of_byte b) 0) as [->|Hne]; [apply Z.bits_0|].
  apply Z.bits_above_log2; [lia|].
  assert (Z.log2 (Z_of_byte b) < 8) by (apply Z.log2_lt_pow2; lia). lia.
Qed.

Lemma byte_of_Z_of_byte (b : byte) : byte_of_Z (Z_of_byte b) = b.
Proof.
  unfold byte_of_Z. change 0xFF with (Z.ones 8). rewrite Z.land_ones by lia.
  rewrite Z.mod_small by apply Z_of_byte_range.
  unfold Z_of_byte. rewrite N2Z.id, Byte.of_to_N. reflexivity.
Qed.

Lemma sextet_index_range (v : Z) : 0 <= Z.land v 0x3F < 64.
Proof.
  change 0x3F with (Z.ones 6). rewrite Z.land_ones by lia.
  apply Z.mod_pos_bound. lia.
Qed.

Lemma decodeMap_encode (i : Z) : 0 <= i < 64 -> decodeMap (encode i) = i.
Proof.
  intros Hi. rewrite <- (Z2Nat.id i) by lia.
  assert (Hn : (Z.to_nat i < 64)%nat) by lia.
  generalize dependent (Z.to_nat i). intros n Hn. clear i Hi.
  do 64 (destruct n as [|n]; [reflexivity|]). lia.
Qed.

Lemma decodeMap_sextet (val shift : Z) :
  decodeMap (sextet val shift) = Z.land (Z.shiftr val shift) 0x3F.
Proof. apply decodeMap_encode, sextet_index_range. Qed.

Lemma decodeMap_sextet_valid (val shift : Z) :
  negb (decodeMap (sextet val shift) =? 0xFF) = true.
Proof.
  rewrite decodeMap_sextet. pose proof (sextet_index_range (Z.shiftr val shift)).
  apply negb_true_iff, Z.eqb_neq. lia.
Qed.

Ltac byte_bits :=
  change 0x3F with (Z.ones 6); change 0xFF with (Z.ones 8);
  Z.bitblast;
  repeat match goal with
         | |- context [Z.testbit (Z_of_byte ?b) ?i] =>
             first [ rewrite (Z_of_byte_high b i) by lia
                   | rewrite (Z.testbit_neg_r (Z_of_byte b) i) by lia ]
         end;
  try reflexivity; try lia; try btauto.

Lemma byte_of_Z_low (v : Z) (x : byte) :
  Z.land v 0xFF = Z_of_byte x -> byte_of_Z v = x.
Proof.
  intros H. rewrite <- (byte_of_Z_of_byte x). unfold byte_of_Z. rewrite H.
  change 0xFF with (Z.ones 8). rewrite Z.land_ones by lia.
  rewrite Z.mod_small by apply Z_of_byte_range. reflexivity.
Qed.

(** Splitting a 24-bit value into four sextets and reassembling it. *)
Lemma reassemble (v : Z) :
  (forall i, 24 <= i -> Z.testbit v i = false) ->
  Z.lor (Z.lor (Z.lor (Z.shiftl (Z.land (Z.shiftr v 18) 0x3F) 18)
                      (Z.shiftl (Z.land (Z.shiftr v 12) 0x3F) 12))
               (Z.shiftl (Z.land (Z.shiftr v 6) 0x3F) 6))
        (Z.land (Z.shiftr v 0) 0x3F) = v.
Proof.
  intros Hv. rewrite Z.shiftr_0_r. change 0x3F with (Z.ones 6). Z.bitblast.
  rewrite Hv by lia. reflexivity.
Qed.

Lemma group_high (a b c : byte) (i : Z) :
  24 <= i -> Z.testbit (group (Z_of_byte a) (Z_of_byte b) (Z_of_byte c)) i = false.
Proof.
  intros Hi. unfold group. rewrite !Z.lor_spec, !Z.shiftl_spec by lia.
  rewrite !Z_of_byte_high by lia. reflexivity.
Qed.

Lemma group_byte0 (a b c : byte) :
  Z.land (Z.shiftr (group (Z_of_byte a) (Z_of_byte b) (Z_of_byte c)) 16) 0xFF = Z_of_byte a.
Proof. unfold group. byte_bits. Qed.

Lemma group_byte1 (a b c : byte) :
  Z.land (Z.shiftr (group (Z_of_byte a) (Z_of_byte b) (Z_of_byte c)) 8) 0xFF = Z_of_byte b.
Proof. unfold group. byte_bits. Qed.

Lemma group_byte2 (a b c : byte) :
  Z.land (Z.shiftr (group (Z_of_byte a) (Z_of_byte b) (Z_of_byte c)) 0) 0xFF = Z_of_byte c.
Proof. unfold group. byte_bits. Qed.


Lemma quantum3 (a b c : byte) :
  let val := group (Z_of_byte a) (Z_of_byte b) (Z_of_byte c) in
  quantum_bytes (Z.land (Z.shiftr val 18) 0x3F, Z.land (Z.shiftr val 12) 0x3F,
                 Z.land (Z.shiftr val 6) 0x3F, Z.land (Z.shiftr val 0) 0x3F) 4
  = [a; b; c].
Proof.
  intros val. unfold quantum_bytes.
  rewrite (reassemble val) by apply group_high.
  f_equal; [|f_equal; [|f_equal]]; apply byte_of_Z_low.
  - apply group_byte0.
  - apply group_byte1.
  - apply group_byte2.
Qed.

(** With the last sextet (or the last two) absent, the quantum keeps the
    value without its low 6 (or 12) bits. *)
Lemma reassemble_3 (v : Z) :
  (forall i, 24 <= i -> Z.testbit v i = false) ->
  Z.lor (Z.lor (Z.lor (Z.shiftl (Z.land (Z.shiftr v 18) 0x3F) 18)
                      (Z.shiftl (Z.land (Z.shiftr v 12) 0x3F) 12))
               (Z.shiftl (Z.land (Z.shiftr v 6) 0x3F) 6)) 0
  = Z.shiftl (Z.shiftr v 6) 6.
Proof.
  intros Hv. change 0x3F with (Z.ones 6). Z.bitblast.
  rewrite Hv by lia. reflexivity.
Qed.

Lemma reassemble_2 (v : Z) :
  (forall i, 24 <= i -> Z.testbit v i = false) ->
  Z.lor (Z.lor (Z.lor (Z.shiftl (Z.land (Z.shiftr v 18) 0x3F) 18)
                      (Z.shiftl (Z.land (Z.shiftr v 12) 0x3F) 12))
               (Z.shiftl 0 6)) 0
  = Z.shiftl (Z.shiftr v 12) 12.
Proof.
  intros Hv. change 0x3F with (Z.ones 6). Z.bitblast.
  rewrite Hv by lia. reflexivity.
Qed.

Lemma shiftr_cleared (v k n : Z) :
  0 <= k <= n -> Z.shiftr (Z.shiftl (Z.shiftr v k) k) n = Z.shiftr v n.
Proof. intros H. Z.bitblast. Qed.

Lemma Z_of_byte_x00 : Z_of_byte x00 = 0.
Proof. reflexivity. Qed.

(** A final group of two bytes: three sextets are decoded. *)
Lemma quantum2 (a b : byte) :
  let val := Z.lor (Z.shiftl (Z_of_byte a) 16) (Z.shiftl (Z_of_byte b) 8) in
  quantum_bytes (Z.land (Z.shiftr val 18) 0x3F, Z.land (Z.shiftr val 12) 0x3F,
                 Z.land (Z.shiftr val 6) 0x3F, 0) 3
  = [a; b].
Proof.
  intros val.
  assert (Hval : val = group (Z_of_byte a) (Z_of_byte b) (Z_of_byte x00)).
  { unfold val, group. rewrite Z_of_byte_x00, Z.lor_0_r. reflexivity. }
  unfold quantum_bytes. rewrite Hval.
  rewrite reassemble_3 by apply group_high.
  f_equal; [|f_equal]; apply byte_of_Z_low; rewrite shiftr_cleared by lia.
  - apply group_byte0.
  - apply group_byte1.
Qed.

(** A final single byte: two sextets are decoded. *)
Lemma quantum1 (a : byte) :
  let val := Z.shiftl (Z_of_byte a) 16 in
  quantum_bytes (Z.land (Z.shiftr val 18) 0x3F, Z.land (Z.shiftr val 12) 0x3F, 0, 0) 2
  = [a].
Proof.
  intros val.
  assert (Hval : val = group (Z_of_byte a) (Z_of_byte x00) (Z_of_byte x00)).
  { unfold val, group. rewrite Z_of_byte_x00, Z.shiftl_0_l, !Z.lor_0_r. reflexivity. }
  unfold quantum_bytes. rewrite Hval.
  rewrite reassemble_2 by apply group_high.
  f_equal; apply byte_of_Z_low; rewrite shiftr_cleared by lia.
  apply group_byte0.
Qed.

Lemma decode_sextet (val shift : Z) (rest : string) (si j : nat) (d : dbuf) :
  (j < 3)%nat ->
  decodeFrom (String (sextet val shift) rest) si j d
  = decodeFrom rest (S si) (S j) (set_dbuf j (Z.land (Z.shiftr val shift) 0x3F) d).
Proof.
  intros Hj. cbn [decodeFrom]. rewrite decodeMap_sextet_valid, decodeMap_sextet.
  destruct j as [|[|[|j]]]; try reflexivity. lia.
Qed.

Lemma decode_sextet_last (val shift : Z) (rest : string) (si : nat) (d : dbuf) :
  decodeFrom (String (sextet val shift) rest) si 3 d
  = bind (decodeFrom rest (S si) 0 dbuf0)
         (fun tl => Ok (quantum_bytes (set_dbuf 3 (Z.land (Z.shiftr val shift) 0x3F) d) 4 ++ tl)).
Proof.
  cbn [decodeFrom]. rewrite decodeMap_sextet_valid, decodeMap_sextet. reflexivity.
Qed.

Lemma decode_encode_from (n : nat) :
  forall (b : list byte) (si : nat),
    (length b <= n)%nat -> decodeFrom (EncodeToString b) si 0 dbuf0 = Ok b.
Proof.
  induction n as [n IH] using lt_wf_ind.
  intros b si Hlen.
  destruct b as [|a [|b [|c rest]]].
  - reflexivity.
  - cbn [EncodeToString]. rewrite !decode_sextet by lia.
    cbn -[quantum_bytes Z.shiftl Z.shiftr Z.land]. rewrite quantum1. reflexivity.
  - cbn [EncodeToString]. rewrite !decode_sextet by lia.
    cbn -[quantum_bytes Z.shiftl Z.shiftr Z.land Z.lor]. rewrite quantum2. reflexivity.
  - cbn [EncodeToString]. rewrite !decode_sextet by lia. rewrite decode_sextet_last.
    cbn [length] in Hlen.
    rewrite (IH (length rest)) by lia. cbn [bind set_dbuf dbuf0].
    rewrite quantum3. reflexivity.
Qed.

End Base64Facts.

(** C2: the inline-binary codec is a faithful round trip: for every byte
    sequence [b], the empty one and any non-UTF8 content included, decoding
    the base64 text of [b] succeeds and yields exactly [b]. *)
Theorem C2_inline_codec_round_trip (b : list byte) :
  Base64.DecodeString (Base64.EncodeToString b) = Ok b.
Proof.
  unfold Base64.DecodeString.
  apply (Base64Facts.decode_encode_from (length b)). lia.
Qed.

(** ** The dispatcher *)

Section Dispatcher.
Import Main.

Lemma stripQuotes_empty : stripQuotes EmptyString = EmptyString.
Proof. reflexivity. Qed.

Example stripQuotes_quoted :
  stripQuotes (Handler.dq +:+ actionUploadFile +:+ Handler.dq) = actionUploadFile
  /\ stripQuotes (Handler.dq +:+ actionUploadFile) = Handler.dq +:+ actionUploadFile
  /\ stripQuotes Handler.dq = Handler.dq.
Proof. repeat split; reflexivity. Qed.

(** Without action header the markers decide, the lookup marker first. *)
Example sniff_priority :
  (exists r', route (Sample.post [] (Sample.getUserXML "1")) = CallGetUser r')
  /\ (exists r', route (Sample.post [] (Sample.uploadMTOMXML "a.txt" "aGVsbG8="))
                 = CallUploadFileMTOM r')
  /\ (exists r', route (Sample.post [] "<UploadFileRequest/><GetUserRequest/>")
                 = CallGetUser r')
  /\ route (Sample.post [] "<Envelope/>") = UnknownOperation
  /\ route (mkRequest "GET" ∅ (NewReader (Sample.getUserXML "1"))) = MethodNotAllowed.
Proof. repeat split; try (eexists; vm_compute; reflexivity); reflexivity. Qed.

Lemma eqb_known_action (token : string) (op : Operation) :
  token = action op ->
  String.eqb token actionGetUser = match op with OpGetUser => true | _ => false end
  /\ String.eqb token actionUploadFile = match op with OpUploadFile => true | _ => false end
  /\ String.eqb token actionUploadFileMTOM
     = match op with OpUploadFileMTOM => true | _ => false end.
Proof. intros ->. destruct op; repeat split; reflexivity. Qed.

(** Whatever the peek selects, the handler is given a body holding the
    peeked bytes and nothing else. *)
Lemma sniff_body (r r' : Request) (op : Operation) :
  sniff r = call op r' -> content (Body r') = fst (Read 512 (Body r)).
Proof.
  unfold sniff. destruct (Read 512 (Body r)) as [buf rest] eqn:Hread. cbn [fst].
  assert (Hc : content (newReadCloser (string_of_bytes buf)) = buf).
  { unfold newReadCloser, NewReader, content, bytes_of_string, string_of_bytes.
    rewrite list_byte_of_string_of_list_byte. destruct buf; cbn; [reflexivity|].
    rewrite app_nil_r. reflexivity. }
  repeat match goal with
         | |- context [if ?b then _ else _] => destruct b
         end;
    destruct op; cbn [call]; intros Heq; inversion Heq; subst r'; exact Hc.
Qed.

End Dispatcher.

(** C1 (the code at a request it mishandles): a POST without action header
    whose 789-byte [GetUser] envelope has its marker inside the first 512
    bytes is routed to [GetUser], but the body handed to the handler holds
    the first 512 bytes only; the rest of the stream is not re-attached. *)
Theorem C1_sniffed_body_is_truncated :
  let r := Sample.post [] Sample.longGetUserBody in
  exists r',
    Main.route r = Main.CallGetUser r'
    /\ length (content (Body r)) = 789
    /\ content (Body r') = firstn 512 (content (Body r))
    /\ content (Body r') <> content (Body r).
Proof.
  intros r.
  destruct (Main.route r) as [| r' | r' | r' |] eqn:Hroute;
    try (vm_compute in Hroute; discriminate).
  exists r'. split; [reflexivity|].
  assert (Hbody : content (Body r') = firstn 512 (content (Body r))).
  { vm_compute in Hroute. injection Hroute as <-. vm_compute. reflexivity. }
  split; [vm_compute; reflexivity|]. split; [exact Hbody|].
  rewrite Hbody. intros Heq. apply (f_equal (@length byte)) in Heq.
  vm_compute in Heq. discriminate.
Qed.

(** C3: for every POST request whose action header, once a surrounding pair
    of quotes is stripped, equals the action identifier of an operation, the
    dispatcher calls that operation's handler with the request untouched:
    the body is neither read nor replaced, whatever markers it contains. *)
Theorem C3_action_header_decides (r : Request) (op : Operation) :
  Method r = MethodPost ->
  Main.stripQuotes (Header_Get (ReqHeader r) "SOAPAction") = action op ->
  Main.route r = call op r.
Proof.
  intros Hpost Htoken. unfold Main.route. rewrite Hpost. cbn [negb String.eqb].
  change (String.eqb MethodPost MethodPost) with true. cbn [negb].
  destruct (String.eqb_spec (Header_Get (ReqHeader r) "SOAPAction") EmptyString) as [He|_].
  - rewrite He in Htoken. destruct op; discriminate Htoken.
  - cbn [negb]. destruct (eqb_known_action _ op Htoken) as (H1 & H2 & H3).
    rewrite H1, H2, H3. destruct op; reflexivity.
Qed.

(** A request with the quoted [GetUser] action and an [UploadFile] body. *)
Lemma C3_action_header_decides_witness :
  let r := Sample.post [("SOAPAction", Handler.dq +:+ Main.actionGetUser +:+ Handler.dq)]
             (Sample.envelopeXML "<UploadFileRequest></UploadFileRequest>") in
  Contains (string_of_bytes (content (Body r))) "UploadFileRequest" = true
  /\ Main.route r = Main.CallGetUser r.
Proof.
  intros r. split; [reflexivity|].
  apply (C3_action_header_decides r OpGetUser); reflexivity.
Defined.

(** C8 (as the code has it): for every POST request whose stripped action
    token matches none of the three identifiers (absent, empty or unknown),
    the dispatcher falls back to content sniffing; the Client fault
    [Unknown operation] is emitted exactly when the peeked prefix of the
    body contains none of the three markers. *)
Theorem C8_unmatched_action_falls_back (r : Request) :
  Method r = MethodPost ->
  (forall op, Main.stripQuotes (Header_Get (ReqHeader r) "SOAPAction") <> action op) ->
  Main.route r = Main.sniff r
  /\ (Main.route r = Main.UnknownOperation
      <-> anyMarker (string_of_bytes (fst (Read 512 (Body r)))) = false)
  /\ (anyMarker (string_of_bytes (fst (Read 512 (Body r)))) = false ->
      forall (L : Libs) env w s,
        Main.soapEndpoint env w r s
        = (Main.sendSOAPError w "Client" "Unknown operation"
             "Could not determine SOAP operation from request", s)).
Proof.
  intros Hpost Hnone.
  assert (Hroute : Main.route r = Main.sniff r).
  { unfold Main.route. rewrite Hpost.
    change (String.eqb MethodPost MethodPost) with true. cbn [negb].
    destruct (negb _); [|reflexivity].
    destruct (String.eqb_spec (Main.stripQuotes (Header_Get (ReqHeader r) "SOAPAction"))
                Main.actionGetUser) as [E|_]; [destruct (Hnone OpGetUser E)|].
    destruct (String.eqb_spec (Main.stripQuotes (Header_Get (ReqHeader r) "SOAPAction"))
                Main.actionUploadFile) as [E|_]; [destruct (Hnone OpUploadFile E)|].
    destruct (String.eqb_spec (Main.stripQuotes (Header_Get (ReqHeader r) "SOAPAction"))
                Main.actionUploadFileMTOM) as [E|_]; [destruct (Hnone OpUploadFileMTOM E)|].
    reflexivity. }
  assert (Hiff : Main.sniff r = Main.UnknownOperation
                 <-> anyMarker (string_of_bytes (fst (Read 512 (Body r)))) = false).
  { unfold Main.sniff, anyMarker. destruct (Read 512 (Body r)) as [buf rest]. cbn [fst].
    destruct (Contains (string_of_bytes buf) "GetUserRequest");
      destruct (Contains (string_of_bytes buf) "UploadFileMTOMRequest");
      destruct (Contains (string_of_bytes buf) "UploadFileRequest");
      cbn; split; intros Heq; try discriminate Heq; reflexivity. }
  split; [exact Hroute|]. split; [rewrite Hroute; exact Hiff|].
  intros Hno L env w s. unfold Main.soapEndpoint.
  rewrite Hroute. apply Hiff in Hno. rewrite Hno. reflexivity.
Qed.

(** A request with an unknown action and no marker in its body. *)
Lemma C8_unmatched_action_falls_back_witness :
  let r := Sample.post [("SOAPAction", "http://example.com/soap/user/DeleteUser")]
             (Sample.envelopeXML "<DeleteUserRequest></DeleteUserRequest>") in
  Main.route r = Main.sniff r /\ Main.route r = Main.UnknownOperation.
Proof.
  intros r.
  assert (Hpost : Method r = MethodPost) by reflexivity.
  assert (Hnone : forall op,
             Main.stripQuotes (Header_Get (ReqHeader r) "SOAPAction") <> action op).
  { intros op. destruct op; vm_compute; discriminate. }
  destruct (C8_unmatched_action_falls_back r Hpost Hnone) as (H1 & H2 & _).
  split; [exact H1|]. apply H2. reflexivity.
Defined.

(** C8 as stated fails: a POST request with the unknown, non-empty action
    [.../DeleteUser] and a [GetUserRequest] body is not answered with the
    fault; the body's marker routes it to [GetUser]. *)
Lemma C8_counterexample :
  let r := Sample.post [("SOAPAction", "http://example.com/soap/user/DeleteUser")]
             (Sample.getUserXML "1") in
  Method r = MethodPost
  /\ Main.stripQuotes (Header_Get (ReqHeader r) "SOAPAction") <> EmptyString
  /\ (forall op, Main.stripQuotes (Header_Get (ReqHeader r) "SOAPAction") <> action op)
  /\ Main.route r <> Main.UnknownOperation
  /\ exists r', Main.route r = Main.CallGetUser r'.
Proof.
  intros r. split; [reflexivity|]. split; [vm_compute; discriminate|].
  split; [intros op; destruct op; vm_compute; discriminate|].
  split; [vm_compute; discriminate|].
  eexists. vm_compute. reflexivity.
Qed.

(** ** Strings *)

Section Strings.

Lemma Contains_cons (c : ascii) (s t : string) :
  Contains s t = true -> Contains (String c s) t = true.
Proof. intros H. cbn [Contains]. rewrite H. apply orb_true_r. Qed.

Lemma Contains_prefix (s t : string) :
  HasPrefix s t = true -> Contains s t = true.
Proof. intros H. destruct s; cbn [Contains]; rewrite H; reflexivity. Qed.

(** A string that starts with [p +:+ t] contains [t]. *)
Lemma prefix_app_Contains (p t : string) :
  forall s, HasPrefix s (p +:+ t) = true -> Contains s t = true.
Proof.
  induction p as [|a p IH]; intros s H.
  - apply Contains_prefix. exact H.
  - destruct s as [|b s]; [discriminate H|].
    simpl in H. apply andb_true_iff in H as [_ H].
    apply Contains_cons, IH, H.
Qed.

Lemma Contains_app_r (p t : string) :
  forall s, Contains s (p +:+ t) = true -> Contains s t = true.
Proof.
  induction s as [|c s IH]; cbn [Contains]; intros H.
  - apply orb_true_iff in H as [H|H]; [|discriminate H].
    apply (prefix_app_Contains p t EmptyString H).
  - apply orb_true_iff in H as [H|H].
    + apply (prefix_app_Contains p t (String c s) H).
    + apply Contains_cons, IH, H.
Qed.

End Strings.

(** ** The reference pattern *)

Module RegexpFacts.
Import Regexp.

Lemma spanNonQuote_run (id : string) (q : ascii) (rest : string) :
  quoteFree id = true -> isQuote q = true ->
  spanNonQuote (id +:+ String q rest) = (id, String q rest).
Proof.
  intros Hfree Hq. induction id as [|c id IH]; simpl.
  - rewrite Hq. reflexivity.
  - simpl in Hfree. apply andb_true_iff in Hfree as [Hc Hid].
    apply negb_true_iff in Hc. rewrite Hc, (IH Hid). reflexivity.
Qed.

(** The pattern matches at the start of a marker and captures its identifier. *)
Lemma matchHere_marker (q q' : ascii) (id rest : string) :
  isQuote q = true -> isQuote q' = true -> id <> EmptyString -> quoteFree id = true ->
  matchHere (marker q id q' +:+ rest) = Some (q, id).
Proof.
  intros Hq Hq' Hne Hfree. unfold matchHere, marker.
  simpl. rewrite Hq.
  simpl.
  replace ((id +:+ String q' EmptyString) +:+ rest) with (id +:+ String q' rest).
  - rewrite (spanNonQuote_run id q' rest Hfree Hq').
    destruct id; [contradiction Hne; reflexivity | reflexivity].
  - clear. induction id as [|c id IH]; simpl; [reflexivity|].
    rewrite IH. reflexivity.
Qed.

(** Before the first occurrence of [href=] no match can start, not even one
    that would run into the marker that follows. *)
Lemma cutPrefix_before (c : ascii) (pre tail : string) :
  Contains (String c pre) "href=" = false ->
  cutPrefix "href=" (String c pre +:+ "href=" +:+ tail) = None.
Proof.
  intros Hno. cbn [Contains] in Hno. apply orb_false_iff in Hno as [Hpre _].
  destruct pre as [|c2 [|c3 [|c4 [|c5 pre]]]];
    repeat (cbn [HasPrefix cutPrefix String.append andb] in Hpre |- *;
            match goal with
            | |- context [Ascii.eqb ?a ?b] =>
                first [ is_var b; destruct (Ascii.eqb a b)
                      | let v := eval vm_compute in (Ascii.eqb a b) in
                        change (Ascii.eqb a b) with v ]
            end);
    cbn [HasPrefix cutPrefix String.append andb] in Hpre |- *;
    try reflexivity; discriminate Hpre.
Qed.

Lemma matchHere_before (c : ascii) (pre tail : string) :
  Contains (String c pre) "href=" = false ->
  matchHere (String c pre +:+ "href=" +:+ tail) = None.
Proof.
  intros Hno. unfold matchHere. rewrite (cutPrefix_before c pre tail Hno). reflexivity.
Qed.

Lemma marker_unfold (q q' : ascii) (id rest : string) :
  marker q id q' +:+ rest
  = "href=" +:+ (String q ("cid:" +:+ id +:+ String q' EmptyString) +:+ rest).
Proof. reflexivity. Qed.

(** The leftmost match is the first marker. *)
Lemma FindStringSubmatch_first (pre : string) (q q' : ascii) (id rest : string) :
  Contains pre "href=" = false ->
  isQuote q = true -> isQuote q' = true -> id <> EmptyString -> quoteFree id = true ->
  exists whole, FindStringSubmatch (pre +:+ marker q id q' +:+ rest) = [whole; id].
Proof.
  intros Hno Hq Hq' Hne Hfree. induction pre as [|c pre IH].
  - change (EmptyString +:+ marker q id q' +:+ rest) with (marker q id q' +:+ rest).
    destruct (marker q id q' +:+ rest) eqn:Hm;
      cbn [FindStringSubmatch]; rewrite <- Hm, (matchHere_marker q q' id rest Hq Hq' Hne Hfree);
      eexists; reflexivity.
  - assert (Hpre : Contains pre "href=" = false).
    { cbn [Contains] in Hno. apply orb_false_iff in Hno as [_ H]. exact H. }
    destruct (IH Hpre) as [whole Hwhole]. exists whole.
    change (String c pre +:+ marker q id q' +:+ rest)
      with (String c (pre +:+ marker q id q' +:+ rest)).
    cbn [FindStringSubmatch].
    change (String c (pre +:+ marker q id q' +:+ rest))
      with (String c pre +:+ marker q id q' +:+ rest).
    rewrite marker_unfold, (matchHere_before c pre _ Hno), <- marker_unfold.
    exact Hwhole.
Qed.

Lemma FindStringSubmatch_length (s : string) : length (FindStringSubmatch s) <= 2.
Proof.
  induction s as [|c s IH]; cbn [FindStringSubmatch].
  - destruct (matchHere EmptyString) as [[q id]|]; cbn; lia.
  - destruct (matchHere (String c s)) as [[q id]|]; [cbn; lia | exact IH].
Qed.

End RegexpFacts.

(** ** Multipart parsing and reference resolution *)

Section MTOM.
Context `{L : Libs}.
Import Handler.

Ltac invert H := inversion H; subst; clear H.

Example Trim_angle_brackets :
  Trim "<part1@example.com>" "<>" = "part1@example.com"
  /\ Trim "<<a>b>" "<>" = "a>b"
  /\ Trim "plain" "<>" = "plain".
Proof. repeat split; reflexivity. Qed.

(** The loop collects the attachment parts in original order. *)
Lemma readParts_attachments (next : list Part) (final : option string) :
  forall acc sp parts soapPart,
    readParts next final acc sp = Ok (parts, soapPart) ->
    parts = acc ++ attachments next.
Proof.
  induction next as [|part next IH]; intros acc sp parts soapPart H; cbn in H |- *.
  - destruct final; invert H. rewrite app_nil_r. reflexivity.
  - destruct (PartBody part) as [data|e]; [|discriminate H].
    destruct (isSOAPPart _).
    + apply (IH _ _ _ _ H).
    + rewrite (IH _ _ _ _ H), <- app_assoc. reflexivity.
Qed.

(** Parts outside the SOAP/XOP family leave the control text as it is. *)
Lemma readParts_no_control (next : list Part) (final : option string) :
  forall acc sp parts soapPart,
    Forall (fun p => isSOAPPart (Header_Get (PartHeader p) "Content-Type") = false) next ->
    readParts next final acc sp = Ok (parts, soapPart) ->
    soapPart = sp.
Proof.
  induction next as [|part next IH]; intros acc sp parts soapPart Hall H; cbn in H.
  - destruct final; invert H. reflexivity.
  - invert Hall. destruct (PartBody part) as [data|e]; [|discriminate H].
    match goal with Hp : isSOAPPart _ = false |- _ => rewrite Hp in H end.
    apply (IH _ _ _ _ ltac:(assumption) H).
Qed.

(** The loop over a message is the loop over its tail, from the variables
    as the head leaves them. *)
Lemma readParts_app (before rest : list Part) (final : option string) :
  forall acc sp res,
    readParts (before ++ rest) final acc sp = Ok res ->
    exists acc' sp', readParts rest final acc' sp' = Ok res.
Proof.
  induction before as [|part before IH]; intros acc sp res H.
  - exists acc, sp. exact H.
  - cbn in H. destruct (PartBody part) as [data|e]; [|discriminate H].
    destruct (isSOAPPart _); apply (IH _ _ _ H).
Qed.

(** A control part followed by attachment parts only is the one kept. *)
Lemma readParts_last_control (before after : list Part) (p : Part) (data : list byte)
    (final : option string) (parts : list MultipartPart) (soapPart : string) :
  readParts (before ++ p :: after) final [] EmptyString = Ok (parts, soapPart) ->
  isSOAPPart (Header_Get (PartHeader p) "Content-Type") = true ->
  PartBody p = Ok data ->
  Forall (fun p => isSOAPPart (Header_Get (PartHeader p) "Content-Type") = false) after ->
  soapPart = string_of_bytes data.
Proof.
  intros H Hsoap Hdata Hafter.
  destruct (readParts_app before (p :: after) final _ _ _ H) as (acc & sp & H').
  cbn in H'. rewrite Hdata, Hsoap in H'.
  apply (readParts_no_control after final _ _ _ _ Hafter H').
Qed.

Lemma findPart_Some (parts : list MultipartPart) (X : string) (data : list byte) :
  findPart parts X = Some data ->
  exists before p after,
    parts = before ++ p :: after /\ ContentID p = X
    /\ Forall (fun q => ContentID q <> X) before /\ data = Data p.
Proof.
  induction parts as [|q parts IH]; cbn; intros H; [discriminate H|].
  destruct (String.eqb_spec (ContentID q) X) as [Heq|Hne].
  - invert H. exists [], q, parts. repeat split; auto.
  - destruct (IH H) as (before & p & after & -> & Hp & Hbefore & ->).
    exists (q :: before), p, after. repeat split; auto.
Qed.

Lemma findPart_None (parts : list MultipartPart) (X : string) :
  (forall p, In p parts -> ContentID p <> X) -> findPart parts X = None.
Proof.
  induction parts as [|q parts IH]; cbn; intros H; [reflexivity|].
  destruct (String.eqb_spec (ContentID q) X) as [Heq|Hne].
  - destruct (H q (or_introl eq_refl) Heq).
  - apply IH. intros p Hp. apply H. right. exact Hp.
Qed.

(** At most one reference is extracted. *)
Lemma xopRefs_length (soapEnvelope fileName : string) (xopRefs : list string) :
  parseMTOMSOAPEnvelope soapEnvelope = Ok (fileName, xopRefs) -> length xopRefs <= 1.
Proof.
  unfold parseMTOMSOAPEnvelope. intros H.
  destruct (xml_Unmarshal_UploadFileMTOM soapEnvelope) as [envelope|e]; [|discriminate H].
  invert H. destruct (_ || _); [|cbn; lia].
  destruct (Regexp.FindStringSubmatch _) as [|m0 [|m1 ms]]; cbn; lia.
Qed.

(** Once the multipart parser has accepted a request, [parseMTOMRequest] is
    the reference resolution on its result. *)
Lemma parseMTOMRequest_parsed (r : Request) (next : list Part)
    (parts : list MultipartPart) (soapPart : string) :
  parsesTo r next parts soapPart ->
  parseMTOMRequest r =
    match parseMTOMSOAPEnvelope soapPart with
    | Err e => Err ("failed to parse SOAP envelope: " +:+ e)
    | Ok (fileName, xopRefs) =>
        match resolveRefs xopRefs parts [] with
        | Err e => Err e
        | Ok fileData =>
            if Nat.eqb (length fileData) 0
            then Err "no file data found in MTOM request"
            else Ok (fileName, fileData)
        end
    end.
Proof.
  intros (mediatype & params & boundary & body & final & Hm & Hb & Hr & Hn & Hp).
  unfold parseMTOMRequest. rewrite Hm, Hb, Hr, Hn, Hp. reflexivity.
Qed.

(** A request [parseMTOMRequest] accepts has been accepted by the parser. *)
Lemma parseMTOMRequest_Ok (r : Request) (result : string * list byte) :
  parseMTOMRequest r = Ok result ->
  exists next parts soapPart, parsesTo r next parts soapPart.
Proof.
  unfold parseMTOMRequest, parsesTo. intros H.
  destruct (mime_ParseMediaType _) as [[mediatype params]|e] eqn:Hm; [|discriminate H].
  destruct (params !! "boundary") as [boundary|] eqn:Hb; [|discriminate H].
  destruct (ReadAll (Body r)) as [body|e] eqn:Hr; [|discriminate H].
  destruct (multipart_NewReader body boundary) as [next final] eqn:Hn.
  destruct (readParts next final [] EmptyString) as [[parts soapPart]|e] eqn:Hp;
    [|discriminate H].
  exists next, parts, soapPart, mediatype, params, boundary, body, final. auto.
Qed.

(** The fault [UploadFileMTOM] answers with when [parseMTOMRequest] fails. *)
Lemma UploadFileMTOM_parse_error (env : Env) (dir : string) (w : ResponseWriter)
    (r : Request) (s : World) (e : string) :
  HasPrefix (Header_Get (ReqHeader r) "Content-Type") "multipart/related" = true ->
  parseMTOMRequest r = Err e ->
  UploadFileMTOM env dir w r s = (sendSOAPError w "Client" "Invalid MTOM request" e, s).
Proof. intros Hct He. unfold UploadFileMTOM. rewrite Hct, He. reflexivity. Qed.

End MTOM.

(** ** The claims on the multipart path *)

(** C4 (as the code has it): on the multipart path, when the multipart
    parser has accepted the request and the text of the control part's
    [fileData] field contains no include marker, no reference is extracted
    and the text is not decoded as base64: the request fails with the
    Client fault [Invalid MTOM request], detail [no file data found in MTOM
    request].  (Base64 text is decoded only for requests that are not
    multipart/related.) *)
Theorem C4_no_marker_on_multipart_path {L : Libs} (env : Env) (dir : string)
    (w : ResponseWriter) (r : Request) (s : World) (next : list Part)
    (parts : list Handler.MultipartPart) (soapPart : string)
    (envelope : UploadFileMTOMRequest) :
  HasPrefix (Header_Get (ReqHeader r) "Content-Type") "multipart/related" = true ->
  parsesTo r next parts soapPart ->
  xml_Unmarshal_UploadFileMTOM soapPart = Ok envelope ->
  Contains (UploadFileMTOMRequest_FileData envelope) "Include" = false ->
  Handler.parseMTOMSOAPEnvelope soapPart = Ok (UploadFileMTOMRequest_FileName envelope, [])
  /\ Handler.parseMTOMRequest r = Err "no file data found in MTOM request"
  /\ Handler.UploadFileMTOM env dir w r s
     = (Handler.sendSOAPError w "Client" "Invalid MTOM request"
          "no file data found in MTOM request", s).
Proof.
  intros Hct Hparsed Hxml Hno.
  assert (Hrefs : Handler.parseMTOMSOAPEnvelope soapPart
                  = Ok (UploadFileMTOMRequest_FileName envelope, [])).
  { unfold Handler.parseMTOMSOAPEnvelope. rewrite Hxml, Hno.
    destruct (Contains (UploadFileMTOMRequest_FileData envelope) "<xop:Include") eqn:Hx;
      [|reflexivity].
    apply (Contains_app_r "<xop:" "Include") in Hx. congruence. }
  assert (Herr : Handler.parseMTOMRequest r = Err "no file data found in MTOM request").
  { rewrite (parseMTOMRequest_parsed r next parts soapPart Hparsed), Hrefs.
    reflexivity. }
  split; [exact Hrefs|]. split; [exact Herr|].
  apply UploadFileMTOM_parse_error; assumption.
Qed.

(** A multipart request whose control part carries base64 text inline. *)
Lemma C4_no_marker_on_multipart_path_witness :
  let L := Sample.libs "1" "a.txt" "aGVsbG8="
             [Sample.part "<root>" "application/xop+xml"
                (Sample.uploadMTOMXML "a.txt" "aGVsbG8=")] in
  let r := Sample.post Sample.mtomHeaders Sample.multipartBody in
  Handler.parseMTOMRequest r = Err "no file data found in MTOM request".
Proof.
  intros L r.
  refine (proj1 (proj2 (C4_no_marker_on_multipart_path (L := L) Sample.env Main.uploadDir
            newResponseWriter r initial_World
            [Sample.part "<root>" "application/xop+xml"
               (Sample.uploadMTOMXML "a.txt" "aGVsbG8=")]
            [] (Sample.uploadMTOMXML "a.txt" "aGVsbG8=")
            (mkUploadFileMTOMRequest "a.txt" "aGVsbG8=") _ _ _ _))).
  - reflexivity.
  - exists "multipart/related", {[ "boundary" := "MIME_boundary" ]}, "MIME_boundary",
      (bytes_of_string Sample.multipartBody), None.
    repeat split; reflexivity.
  - reflexivity.
  - reflexivity.
Defined.

(** C4 as stated fails: the control part of this multipart request holds
    the base64 text of [hello] and no include marker; the text would decode,
    yet the request is refused and nothing is decoded. *)
Lemma C4_counterexample :
  let L := Sample.libs "1" "a.txt" "aGVsbG8="
             [Sample.part "<root>" "application/xop+xml"
                (Sample.uploadMTOMXML "a.txt" "aGVsbG8=")] in
  let r := Sample.post Sample.mtomHeaders Sample.multipartBody in
  Contains "aGVsbG8=" "Include" = false
  /\ Base64.DecodeString "aGVsbG8=" = Ok (bytes_of_string "hello")
  /\ Handler.parseMTOMRequest r <> Ok ("a.txt", bytes_of_string "hello")
  /\ Handler.parseMTOMRequest r = Err "no file data found in MTOM request"
  /\ fst (Main.soapEndpoint Sample.env newResponseWriter r initial_World)
     = Handler.sendSOAPError newResponseWriter "Client" "Invalid MTOM request"
         "no file data found in MTOM request".
Proof.
  intros L r. split; [reflexivity|]. split; [reflexivity|].
  split; [vm_compute; discriminate|]. split; reflexivity.
Qed.

(** C5 (the code at the message it mishandles): the repository documents
    the reference as an include element inside the [fileData] element.  The
    field is a Go string, so the XML decoder stores the character data of
    the element only and leaves the text empty for such a control part.
    Then no reference is extracted, whatever the attachments are: the
    request is refused with [no file data found in MTOM request], never
    with [XOP reference not found:] and the identifier. *)
Theorem C5_element_reference_is_lost {L : Libs} (env : Env) (dir : string)
    (w : ResponseWriter) (r : Request) (s : World) (next : list Part)
    (parts : list Handler.MultipartPart) (soapPart : string)
    (envelope : UploadFileMTOMRequest) :
  HasPrefix (Header_Get (ReqHeader r) "Content-Type") "multipart/related" = true ->
  parsesTo r next parts soapPart ->
  xml_Unmarshal_UploadFileMTOM soapPart = Ok envelope ->
  UploadFileMTOMRequest_FileData envelope = EmptyString ->
  Handler.parseMTOMSOAPEnvelope soapPart = Ok (UploadFileMTOMRequest_FileName envelope, [])
  /\ Handler.parseMTOMRequest r = Err "no file data found in MTOM request"
  /\ (forall X, Handler.parseMTOMRequest r <> Err ("XOP reference not found: " +:+ X))
  /\ Handler.UploadFileMTOM env dir w r s
     = (Handler.sendSOAPError w "Client" "Invalid MTOM request"
          "no file data found in MTOM request", s).
Proof.
  intros Hct Hparsed Hxml Hempty.
  assert (Hrefs : Handler.parseMTOMSOAPEnvelope soapPart
                  = Ok (UploadFileMTOMRequest_FileName envelope, [])).
  { unfold Handler.parseMTOMSOAPEnvelope. rewrite Hxml, Hempty. reflexivity. }
  assert (Herr : Handler.parseMTOMRequest r = Err "no file data found in MTOM request").
  { rewrite (parseMTOMRequest_parsed r next parts soapPart Hparsed), Hrefs.
    reflexivity. }
  split; [exact Hrefs|]. split; [exact Herr|]. split.
  - intros X H. rewrite Herr in H. simpl in H. discriminate H.
  - apply UploadFileMTOM_parse_error; assumption.
Qed.

(** The control part holds the include element for [att1]; the library
    decodes its [fileData] text as empty; the only attachment is [att2]. *)
Lemma C5_element_reference_is_lost_witness :
  let L := Sample.libs "1" "a.txt" EmptyString
             [Sample.part "<root>" "application/xop+xml"
                (Sample.uploadMTOMXML "a.txt" (Sample.includeText "att1"));
              Sample.part "<att2>" "application/octet-stream" "zzz"] in
  let r := Sample.post Sample.mtomHeaders Sample.multipartBody in
  Contains (Sample.uploadMTOMXML "a.txt" (Sample.includeText "att1"))
    ("<fileData><xop:Include " +:+ marker "034" "att1" "034" +:+ "/></fileData>") = true
  /\ Handler.parseMTOMRequest r = Err "no file data found in MTOM request".
Proof.
  intros L r. split; [vm_compute; reflexivity|].
  refine (proj1 (proj2 (C5_element_reference_is_lost (L := L) Sample.env Main.uploadDir
            newResponseWriter r initial_World
            [Sample.part "<root>" "application/xop+xml"
               (Sample.uploadMTOMXML "a.txt" (Sample.includeText "att1"));
             Sample.part "<att2>" "application/octet-stream" "zzz"]
            [Handler.mkMultipartPart "att2" "application/octet-stream" (bytes_of_string "zzz")]
            (Sample.uploadMTOMXML "a.txt" (Sample.includeText "att1"))
            (mkUploadFileMTOMRequest "a.txt" EmptyString) _ _ _ _))).
  - reflexivity.
  - exists "multipart/related", {[ "boundary" := "MIME_boundary" ]}, "MIME_boundary",
      (bytes_of_string Sample.multipartBody), None.
    repeat split; reflexivity.
  - reflexivity.
  - reflexivity.
Defined.

(** C6: when [parseMTOMRequest] succeeds, the bytes it returns are the data
    of an attachment part, unchanged; the part is the first one, in original
    part order, whose identifier is the one the control part references. *)
Theorem C6_first_match_verbatim {L : Libs} (r : Request) (fileName : string)
    (fileData : list byte) :
  Handler.parseMTOMRequest r = Ok (fileName, fileData) ->
  exists next parts soapPart X before p after,
    parsesTo r next parts soapPart
    /\ Handler.parseMTOMSOAPEnvelope soapPart = Ok (fileName, [X])
    /\ attachments next = before ++ p :: after
    /\ Handler.ContentID p = X
    /\ Forall (fun q => Handler.ContentID q <> X) before
    /\ fileData = Handler.Data p.
Proof.
  intros Hok.
  destruct (parseMTOMRequest_Ok r _ Hok) as (next & parts & soapPart & Hparsed).
  rewrite (parseMTOMRequest_parsed r next parts soapPart Hparsed) in Hok.
  destruct (Handler.parseMTOMSOAPEnvelope soapPart) as [[fn xopRefs]|e] eqn:Hrefs;
    [|discriminate Hok].
  pose proof (xopRefs_length _ _ _ Hrefs) as Hlen.
  destruct xopRefs as [|X [|Y xopRefs]]; [discriminate Hok | | cbn in Hlen; lia].
  cbn [Handler.resolveRefs] in Hok.
  destruct (Handler.findPart parts X) as [data|] eqn:Hfind; [|discriminate Hok].
  destruct (Nat.eqb (length data) 0); [discriminate Hok|].
  injection Hok as -> ->.
  destruct (findPart_Some parts X fileData Hfind)
    as (before & p & after & Hsplit & Hid & Hbefore & Hdata).
  exists next, parts, soapPart, X, before, p, after.
  destruct Hparsed as (mt & params & boundary & body & final & Hm & Hb & Hr & Hn & Hloop).
  pose proof (readParts_attachments _ _ _ _ _ _ Hloop) as Hparts. cbn [app] in Hparts.
  repeat split; try assumption.
  - exists mt, params, boundary, body, final. auto.
  - rewrite <- Hparts. exact Hsplit.
Qed.

(** Two attachments are named [att1]; the data of the first is returned. *)
Lemma C6_first_match_verbatim_witness :
  let L := Sample.libs "1" "a.txt" (Sample.includeText "att1")
             [Sample.part "<root>" "application/xop+xml" "x";
              Sample.part "<att2>" "application/octet-stream" "zzz";
              Sample.part "<att1>" "application/octet-stream" "hello";
              Sample.part "<att1>" "application/octet-stream" "second"] in
  let r := Sample.post Sample.mtomHeaders Sample.multipartBody in
  Handler.parseMTOMRequest r = Ok ("a.txt", bytes_of_string "hello")
  /\ exists p, bytes_of_string "hello" = Handler.Data p.
Proof.
  intros L r.
  assert (Hok : Handler.parseMTOMRequest r = Ok ("a.txt", bytes_of_string "hello"))
    by reflexivity.
  split; [exact Hok|].
  destruct (C6_first_match_verbatim (L := L) r "a.txt" (bytes_of_string "hello") Hok)
    as (_ & _ & _ & _ & _ & p & _ & _ & _ & _ & _ & _ & Hdata).
  exists p. exact Hdata.
Defined.

(** C7 (as the code has it): a multipart message without any part of the
    SOAP/XOP family leaves the control text empty, so the request fails
    when the empty text is parsed as XML (the decoder reports [EOF]), with
    the Client fault [Invalid MTOM request] and the detail [failed to parse
    SOAP envelope: XML parse error: EOF]; there is no error of its own for
    a missing control part.  When several parts are of that family, the
    last one is kept as the control part. *)
Theorem C7_control_part_selection {L : Libs} (env : Env) (dir : string)
    (w : ResponseWriter) (r : Request) (s : World) (next : list Part)
    (parts : list Handler.MultipartPart) (soapPart : string) :
  xml_Unmarshal_UploadFileMTOM EmptyString = Err "EOF" ->
  HasPrefix (Header_Get (ReqHeader r) "Content-Type") "multipart/related" = true ->
  parsesTo r next parts soapPart ->
  (Forall (fun p => Handler.isSOAPPart (Header_Get (PartHeader p) "Content-Type") = false)
          next ->
   Handler.parseMTOMRequest r = Err "failed to parse SOAP envelope: XML parse error: EOF"
   /\ Handler.UploadFileMTOM env dir w r s
      = (Handler.sendSOAPError w "Client" "Invalid MTOM request"
           "failed to parse SOAP envelope: XML parse error: EOF", s))
  /\ (forall before p data after,
        next = before ++ p :: after ->
        Handler.isSOAPPart (Header_Get (PartHeader p) "Content-Type") = true ->
        PartBody p = Ok data ->
        Forall (fun p => Handler.isSOAPPart (Header_Get (PartHeader p) "Content-Type") = false)
               after ->
        soapPart = string_of_bytes data).
Proof.
  intros Heof Hct Hparsed. split.
  - intros Hnone.
    assert (Herr : Handler.parseMTOMRequest r
                   = Err "failed to parse SOAP envelope: XML parse error: EOF").
    { rewrite (parseMTOMRequest_parsed r next parts soapPart Hparsed).
      destruct Hparsed as (? & ? & ? & ? & final & _ & _ & _ & _ & Hloop).
      rewrite (readParts_no_control _ _ _ _ _ _ Hnone Hloop).
      unfold Handler.parseMTOMSOAPEnvelope. rewrite Heof. reflexivity. }
    split; [exact Herr|]. apply UploadFileMTOM_parse_error; assumption.
  - intros before p data after -> Hsoap Hdata Hafter.
    destruct Hparsed as (? & ? & ? & ? & final & _ & _ & _ & _ & Hloop).
    apply (readParts_last_control before after p data final parts soapPart);
      assumption.
Qed.

(** A message with one attachment and no control part, and a message with
    two control parts. *)
Lemma C7_control_part_selection_witness :
  (let L := Sample.libs "1" "a.txt" (Sample.includeText "att1")
              [Sample.part "<att1>" "application/octet-stream" "hello"] in
   Handler.parseMTOMRequest (Sample.post Sample.mtomHeaders Sample.multipartBody)
   = Err "failed to parse SOAP envelope: XML parse error: EOF")
  /\ (let L := Sample.libs "1" "a.txt" (Sample.includeText "att1")
                 [Sample.part "<root>" "application/xop+xml" "first";
                  Sample.part "<other>" "text/xml" "second";
                  Sample.part "<att1>" "application/octet-stream" "hello"] in
      forall parts soapPart,
        parsesTo (Sample.post Sample.mtomHeaders Sample.multipartBody)
          [Sample.part "<root>" "application/xop+xml" "first";
           Sample.part "<other>" "text/xml" "second";
           Sample.part "<att1>" "application/octet-stream" "hello"] parts soapPart ->
        soapPart = "second").
Proof.
  split.
  - intros L.
    refine (proj1 (proj1 (C7_control_part_selection (L := L) Sample.env Main.uploadDir
              newResponseWriter (Sample.post Sample.mtomHeaders Sample.multipartBody)
              initial_World [Sample.part "<att1>" "application/octet-stream" "hello"]
              [Handler.mkMultipartPart "att1" "application/octet-stream"
                 (bytes_of_string "hello")]
              EmptyString _ _ _) _)).
    + reflexivity.
    + reflexivity.
    + exists "multipart/related", {[ "boundary" := "MIME_boundary" ]}, "MIME_boundary",
        (bytes_of_string Sample.multipartBody), None.
      repeat split; reflexivity.
    + repeat constructor.
  - intros L parts soapPart Hparsed.
    refine (proj2 (C7_control_part_selection (L := L) Sample.env Main.uploadDir
              newResponseWriter (Sample.post Sample.mtomHeaders Sample.multipartBody)
              initial_World _ parts soapPart _ _ Hparsed)
              [Sample.part "<root>" "application/xop+xml" "first"]
              (Sample.part "<other>" "text/xml" "second") (bytes_of_string "second")
              [Sample.part "<att1>" "application/octet-stream" "hello"] _ _ _ _).
    + reflexivity.
    + reflexivity.
    + reflexivity.
    + reflexivity.
    + reflexivity.
    + repeat constructor.
Defined.

(** C7 as stated fails: for this message without control part the error is
    the XML parse error of the empty text, not [missing control part]. *)
Lemma C7_counterexample :
  let L := Sample.libs "1" "a.txt" (Sample.includeText "att1")
             [Sample.part "<att1>" "application/octet-stream" "hello"] in
  let r := Sample.post Sample.mtomHeaders Sample.multipartBody in
  Handler.parseMTOMRequest r = Err "failed to parse SOAP envelope: XML parse error: EOF"
  /\ Handler.parseMTOMRequest r <> Err "missing control part"
  /\ Contains (Written (fst (Main.soapEndpoint Sample.env newResponseWriter r initial_World)))
       "missing control part" = false.
Proof.
  intros L r. split; [reflexivity|]. split; [vm_compute; discriminate|].
  vm_compute. reflexivity.
Qed.

(** C10: reference extraction yields at most one identifier.  Whatever the
    control part holds, at most one reference is returned; when the text of
    the [fileData] field holds several include markers, the reference is
    the identifier of the first one; and a successful resolution returns
    the data of one single attachment part, the one so referenced. *)
Theorem C10_at_most_one_reference {L : Libs} (soapEnvelope fileName : string)
    (xopRefs : list string) :
  Handler.parseMTOMSOAPEnvelope soapEnvelope = Ok (fileName, xopRefs) ->
  length xopRefs <= 1
  /\ (forall envelope pre q id q' rest,
        xml_Unmarshal_UploadFileMTOM soapEnvelope = Ok envelope ->
        UploadFileMTOMRequest_FileData envelope = pre +:+ marker q id q' +:+ rest ->
        Contains (UploadFileMTOMRequest_FileData envelope) "Include" = true ->
        Contains pre "href=" = false ->
        Regexp.isQuote q = true -> Regexp.isQuote q' = true ->
        id <> EmptyString -> quoteFree id = true ->
        xopRefs = [id])
  /\ (forall parts fileData,
        Handler.resolveRefs xopRefs parts [] = Ok fileData ->
        fileData <> [] ->
        exists p, In p parts /\ xopRefs = [Handler.ContentID p]
                  /\ fileData = Handler.Data p).
Proof.
  intros Hrefs. pose proof (xopRefs_length _ _ _ Hrefs) as Hlen.
  split; [exact Hlen|]. split.
  - intros envelope pre q id q' rest Hxml Htext Hinc Hpre Hq Hq' Hne Hfree.
    unfold Handler.parseMTOMSOAPEnvelope in Hrefs. rewrite Hxml in Hrefs.
    rewrite Hinc, orb_true_r in Hrefs. rewrite Htext in Hrefs.
    destruct (RegexpFacts.FindStringSubmatch_first pre q q' id rest Hpre Hq Hq' Hne Hfree)
      as [whole Hwhole].
    rewrite Hwhole in Hrefs. injection Hrefs as _ <-. reflexivity.
  - intros parts fileData Hres Hdata.
    destruct xopRefs as [|X [|Y xopRefs]]; [| | cbn in Hlen; lia].
    + cbn in Hres. injection Hres as <-. contradiction Hdata. reflexivity.
    + cbn [Handler.resolveRefs] in Hres.
      destruct (Handler.findPart parts X) as [data|] eqn:Hfind; [|discriminate Hres].
      injection Hres as ->.
      destruct (findPart_Some parts X fileData Hfind)
        as (before & p & after & -> & <- & _ & ->).
      exists p. split; [apply in_or_app; right; left; reflexivity|]. split; reflexivity.
Qed.

(** The [fileData] text holds two include markers, for [att1] and [att2]:
    the one reference extracted is [att1]. *)
Lemma C10_at_most_one_reference_witness :
  let L := Sample.libs "1" "a.txt" (Sample.includeText "att1" +:+ Sample.includeText "att2")
             [] in
  exists xopRefs,
    Handler.parseMTOMSOAPEnvelope "x" = Ok ("a.txt", xopRefs)
    /\ length xopRefs <= 1
    /\ xopRefs = ["att1"].
Proof.
  intros L.
  destruct (Handler.parseMTOMSOAPEnvelope "x") as [[fileName xopRefs]|e] eqn:H;
    [|vm_compute in H; discriminate H].
  assert (Hname : fileName = "a.txt") by (vm_compute in H; congruence).
  subst fileName. exists xopRefs. split; [reflexivity|].
  destruct (C10_at_most_one_reference (L := L) "x" "a.txt" xopRefs H) as (Hlen & Hfirst & _).
  split; [exact Hlen|].
  apply (Hfirst (mkUploadFileMTOMRequest "a.txt"
                   (Sample.includeText "att1" +:+ Sample.includeText "att2"))
                "<xop:Include " "034"%char "att1" "034"%char
                ("/>" +:+ Sample.includeText "att2"));
    reflexivity || (intros Hc; discriminate Hc).
Defined.

(** ** The user table *)

Section UserDB.
Context `{L : Libs}.

Lemma storeUpload_userDB (env : Env) (dir elementName : string)
    (respond : string -> string -> nat -> string -> Handler.ResponseBody)
    (fileName : string) (data : list byte) (w : ResponseWriter) (s : World) :
  userDB (snd (Handler.storeUpload env dir elementName respond fileName data w s)) = userDB s.
Proof.
  unfold Handler.storeUpload, MkdirAll, WriteFile.
  destruct (MkdirAll_error env); [reflexivity|].
  destruct (WriteFile_error env); reflexivity.
Qed.

Lemma GetUser_userDB (w : ResponseWriter) (r : Request) (s : World) :
  snd (Handler.GetUser w r s) = s.
Proof.
  unfold Handler.GetUser. destruct (xml_Decode_GetUser (Body r)); [|reflexivity].
  destruct (userDB s !! _); reflexivity.
Qed.

Lemma UploadFile_userDB (env : Env) (dir : string) (w : ResponseWriter) (r : Request)
    (s : World) :
  userDB (snd (Handler.UploadFile env dir w r s)) = userDB s.
Proof.
  unfold Handler.UploadFile. destruct (xml_Decode_UploadFile (Body r)); [|reflexivity].
  destruct (String.eqb _ _); [reflexivity|].
  destruct (String.eqb _ _); [reflexivity|].
  destruct (Base64.DecodeString _); [|reflexivity].
  apply storeUpload_userDB.
Qed.

Lemma UploadFileMTOM_userDB (env : Env) (dir : string) (w : ResponseWriter) (r : Request)
    (s : World) :
  userDB (snd (Handler.UploadFileMTOM env dir w r s)) = userDB s.
Proof.
  unfold Handler.UploadFileMTOM.
  destruct (HasPrefix _ _);
    [destruct (Handler.parseMTOMRequest r) as [[fileName fileData]|]
    |destruct (Handler.parseBase64SOAPRequest r) as [[fileName fileData]|]];
    try reflexivity;
    (destruct (String.eqb _ _); [reflexivity|]);
    (destruct (Nat.eqb _ _); [reflexivity|]);
    apply storeUpload_userDB.
Qed.

Lemma soapEndpoint_userDB (env : Env) (w : ResponseWriter) (r : Request) (s : World) :
  userDB (snd (Main.soapEndpoint env w r s)) = userDB s.
Proof.
  unfold Main.soapEndpoint. destruct (Main.route r) as [| r' | r' | r' |].
  - reflexivity.
  - rewrite GetUser_userDB. reflexivity.
  - apply UploadFile_userDB.
  - apply UploadFileMTOM_userDB.
  - reflexivity.
Qed.

Lemma serve_userDB (reqs : list (Env * Request)) :
  forall s, userDB (snd (Main.serve reqs s)) = userDB s.
Proof.
  induction reqs as [|[env r] reqs IH]; intros s; cbn [Main.serve]; [reflexivity|].
  destruct (Main.soapEndpoint env newResponseWriter r s) as [w s1] eqn:H1.
  destruct (Main.serve reqs s1) as [ws s2] eqn:H2. cbn [snd].
  change s2 with (snd (ws, s2)). rewrite <- H2, IH.
  change s1 with (snd (w, s1)). rewrite <- H1. apply soapEndpoint_userDB.
Qed.

(** The answer of [GetUser] depends on the world through [userDB] only. *)
Lemma GetUser_depends_on_userDB (w : ResponseWriter) (r : Request) (s s' : World) :
  userDB s' = userDB s -> fst (Handler.GetUser w r s') = fst (Handler.GetUser w r s).
Proof.
  intros H. unfold Handler.GetUser. rewrite H.
  destruct (xml_Decode_GetUser (Body r)); [|reflexivity].
  destruct (userDB s !! _); reflexivity.
Qed.

End UserDB.

(** C9: the user table is never mutated.  Every request to the endpoint,
    whatever its method, headers, body and outcome, leaves [userDB] as it
    was; so it is after any sequence of requests, and the lookup operation
    on the same request then gives the same answer (the same record or the
    same user-not-found fault) as before them. *)
Theorem C9_userDB_is_never_mutated {L : Libs} (reqs : list (Env * Request)) (s : World) :
  (forall env w r, userDB (snd (Main.soapEndpoint env w r s)) = userDB s)
  /\ userDB (snd (Main.serve reqs s)) = userDB s
  /\ (forall w r, fst (Handler.GetUser w r (snd (Main.serve reqs s)))
                  = fst (Handler.GetUser w r s)).
Proof.
  split; [intros env w r; apply soapEndpoint_userDB|].
  split; [apply serve_userDB|].
  intros w r. apply GetUser_depends_on_userDB, serve_userDB.
Qed.

(** ** Further properties of the code *)

(** *** Strings *)

Section MoreStrings.

Lemma length_snoc (t : string) (c : ascii) :
  String.length (t +:+ String c EmptyString) = S (String.length t).
Proof. induction t as [|a t IH]; simpl; [reflexivity|]. rewrite IH. reflexivity. Qed.

Lemma get_snoc (t : string) (c : ascii) :
  String.get (String.length t) (t +:+ String c EmptyString) = Some c.
Proof. induction t as [|a t IH]; simpl; [reflexivity|exact IH]. Qed.

Lemma substring_prefix (t u : string) :
  String.substring 0 (String.length t) (t +:+ u) = t.
Proof.
  induction t as [|a t IH]; simpl.
  - destruct u; reflexivity.
  - rewrite IH. reflexivity.
Qed.

Lemma length_substring_0 (n : nat) :
  forall s, String.length (String.substring 0 n s) = Nat.min n (String.length s).
Proof.
  induction n as [|n IH]; intros s; destruct s as [|a s]; simpl; try reflexivity.
  rewrite IH. reflexivity.
Qed.

(** The characters of a prefix are characters of the string. *)
Lemma inCutset_substring_0 (c : ascii) (n : nat) :
  forall s, inCutset c s = false -> inCutset c (String.substring 0 n s) = false.
Proof.
  induction n as [|n IH]; intros s H; destruct s as [|a s]; simpl in *; try reflexivity.
  apply orb_false_iff in H as [Ha Hs]. rewrite Ha, (IH s Hs). reflexivity.
Qed.

Lemma prefix_HasPrefix (old : string) :
  forall s, String.prefix old s = HasPrefix s old.
Proof.
  induction old as [|a old IH]; intros s; destruct s as [|b s]; simpl; try reflexivity.
  rewrite IH. destruct (ascii_dec a b) as [->|Hne].
  - rewrite Ascii.eqb_refl. reflexivity.
  - apply Ascii.eqb_neq in Hne. rewrite Hne. reflexivity.
Qed.

(** Removing occurrences never adds a character. *)
Lemma inCutset_removeAll_from (c : ascii) (old : string) (s : string) :
  forall skip, inCutset c s = false -> inCutset c (removeAll_from old skip s) = false.
Proof.
  induction s as [|a s IH]; intros skip H; [reflexivity|].
  cbn [inCutset] in H. apply orb_false_iff in H as [Ha Hs].
  cbn [removeAll_from]. destruct skip as [|k]; [|apply IH, Hs].
  destruct (String.prefix old (String a s)); [apply IH, Hs|].
  cbn [inCutset]. rewrite Ha, (IH 0 Hs). reflexivity.
Qed.

(** Removing a one-character string removes the character. *)
Lemma inCutset_removeAll_char (c : ascii) (s : string) :
  inCutset c (RemoveAll s (String c EmptyString)) = false.
Proof.
  unfold RemoveAll. induction s as [|a s IH]; [reflexivity|].
  cbn [removeAll_from]. rewrite prefix_HasPrefix. cbn [HasPrefix].
  rewrite andb_true_r. destruct (Ascii.eqb c a) eqn:Hca.
  - cbn [String.length Nat.pred]. exact IH.
  - cbn [inCutset]. rewrite Hca, IH. reflexivity.
Qed.

(** Nothing is removed from a string without occurrence of [old]. *)
Lemma removeAll_absent (old : string) (s : string) :
  Contains s old = false -> RemoveAll s old = s.
Proof.
  unfold RemoveAll. induction s as [|a s IH]; intros H; [reflexivity|].
  cbn [Contains] in H. apply orb_false_iff in H as [Hp Hs].
  cbn [removeAll_from]. rewrite prefix_HasPrefix, Hp, (IH Hs). reflexivity.
Qed.

(** A string holds a character exactly when it contains the one-character
    string. *)
Lemma Contains_char (c : ascii) (s : string) :
  Contains s (String c EmptyString) = inCutset c s.
Proof.
  induction s as [|a s IH]; [reflexivity|].
  cbn [Contains HasPrefix inCutset]. rewrite andb_true_r, IH. reflexivity.
Qed.

End MoreStrings.

(** X1: [stripQuotes] undoes the quoting of an action token: a token wrapped
    in one pair of double quotes is returned without them, whatever it
    contains. *)
Theorem stripQuotes_unquotes (s : string) :
  Main.stripQuotes (Handler.dq +:+ s +:+ Handler.dq) = s.
Proof.
  unfold Main.stripQuotes, Handler.dq.
  change (String "034" EmptyString +:+ s +:+ String "034" EmptyString)
    with (String "034" (s +:+ String "034" EmptyString)).
  cbn [String.length String.get]. rewrite length_snoc.
  cbn [Nat.leb Nat.sub]. rewrite Nat.sub_0_r.
  rewrite get_snoc. cbn [String.substring]. rewrite substring_prefix.
  reflexivity.
Qed.

(** X2: whatever the file name, the sanitized name
    is at most 255 characters long and holds no slash, no backslash and no
    NUL character, so it cannot leave the directory it is joined to. *)
Theorem sanitizeFileName_safe (name : string) :
  String.length (Handler.sanitizeFileName name) <= 255
  /\ inCutset "/" (Handler.sanitizeFileName name) = false
  /\ inCutset "\" (Handler.sanitizeFileName name) = false
  /\ inCutset Ascii.zero (Handler.sanitizeFileName name) = false.
Proof.
  unfold Handler.sanitizeFileName.
  set (n1 := RemoveAll name "..").
  set (n2 := RemoveAll n1 "/").
  set (n3 := RemoveAll n2 "\").
  set (n4 := RemoveAll n3 (String Ascii.zero EmptyString)).
  assert (H2 : inCutset "/" n4 = false).
  { apply inCutset_removeAll_from, inCutset_removeAll_from.
    apply (inCutset_removeAll_char "/" n1). }
  assert (H3 : inCutset "\" n4 = false).
  { apply inCutset_removeAll_from. apply (inCutset_removeAll_char "\" n2). }
  assert (H4 : inCutset Ascii.zero n4 = false)
    by apply (inCutset_removeAll_char Ascii.zero n3).
  destruct (Nat.ltb_spec 255 (String.length n4)) as [Hlong|Hshort].
  - unfold slice_to. rewrite length_substring_0.
    repeat split; [lia | | | ]; apply inCutset_substring_0; assumption.
  - repeat split; assumption.
Qed.

(** X3: a name of at most 255 characters without
    two consecutive dots, slash, backslash or NUL is kept as it is. *)
Theorem sanitizeFileName_clean (name : string) :
  Contains name ".." = false ->
  inCutset "/" name = false ->
  inCutset "\" name = false ->
  inCutset Ascii.zero name = false ->
  String.length name <= 255 ->
  Handler.sanitizeFileName name = name.
Proof.
  intros Hdots Hslash Hback Hnul Hlen. unfold Handler.sanitizeFileName.
  rewrite (removeAll_absent ".." name Hdots).
  rewrite (removeAll_absent "/" name) by (rewrite Contains_char; exact Hslash).
  rewrite (removeAll_absent "\" name) by (rewrite Contains_char; exact Hback).
  rewrite (removeAll_absent (String Ascii.zero EmptyString) name)
    by (rewrite Contains_char; exact Hnul).
  destruct (Nat.ltb_spec 255 (String.length name)); [lia|reflexivity].
Qed.

Lemma sanitizeFileName_clean_witness :
  Handler.sanitizeFileName "report-2024.v1.pdf" = "report-2024.v1.pdf".
Proof. apply sanitizeFileName_clean; [reflexivity .. | vm_compute; lia]. Defined.

(** The dots are removed before the separators: two dots can come together
    again. *)
Example sanitizeFileName_order :
  Handler.sanitizeFileName "../../etc/passwd" = "etcpasswd"
  /\ Handler.sanitizeFileName "./." = "..".
Proof. split; reflexivity. Qed.

(** *** The endpoint *)

Section Endpoint.
Context `{L : Libs}.
Import Main.

(** A read hands over a prefix of what the reader holds, within the size
    asked for, and keeps the rest. *)
Lemma Read_splits (size : nat) (rd rd' : Reader) (buf : list byte) :
  Read size rd = (buf, rd') ->
  content rd = buf ++ content rd' /\ length buf <= size.
Proof.
  unfold Read, content. destruct (chunks rd) as [|c cs] eqn:Hc.
  - intros [= <- <-]. rewrite Hc. split; [reflexivity | cbn; lia].
  - destruct (Nat.leb_spec (length c) size) as [Hle|Hgt]; intros [= <- <-]; cbn.
    + split; [reflexivity | exact Hle].
    + rewrite app_assoc, firstn_skipn. split; [reflexivity|].
      rewrite length_firstn. lia.
Qed.

Lemma content_newReadCloser (buf : list byte) :
  content (newReadCloser (string_of_bytes buf)) = buf.
Proof.
  unfold newReadCloser, NewReader, content, bytes_of_string, string_of_bytes.
  rewrite list_byte_of_string_of_list_byte. destruct buf; cbn; [reflexivity|].
  rewrite app_nil_r. reflexivity.
Qed.

(** The request a handler is called with after sniffing: the request with
    its body replaced by the peeked bytes. *)
Lemma sniff_request (r r' : Request) (op : Operation) :
  sniff r = call op r' ->
  r' = set_Body r (newReadCloser (string_of_bytes (fst (Read 512 (Body r))))).
Proof.
  unfold sniff. destruct (Read 512 (Body r)) as [buf rest]. cbn [fst].
  repeat match goal with
         | |- context [if ?b then _ else _] => destruct b
         end;
    destruct op; cbn [call]; intros Heq; inversion Heq; reflexivity.
Qed.

Lemma Status_sendSOAPError (w : ResponseWriter) (c m d : string) :
  Status w = None ->
  Status (Handler.sendSOAPError w c m d) = Some 200
  /\ RespHeader (Handler.sendSOAPError w c m d) !! "Content-Type"
     = Some "text/xml; charset=utf-8".
Proof.
  intros H. unfold Handler.sendSOAPError, w_Write, Header_Set. cbn. rewrite H.
  split; [reflexivity | apply lookup_insert_eq].
Qed.

Lemma Status_sendSOAPResponse (w : ResponseWriter) (e : string) (b : Handler.ResponseBody) :
  Status w = None ->
  Status (Handler.sendSOAPResponse w e b) = Some 200
  /\ RespHeader (Handler.sendSOAPResponse w e b) !! "Content-Type"
     = Some "text/xml; charset=utf-8".
Proof.
  intros H. unfold Handler.sendSOAPResponse, w_Write, Header_Set. cbn. rewrite H.
  split; [reflexivity | apply lookup_insert_eq].
Qed.

Lemma Status_storeUpload (env : Env) (dir elementName : string)
    (respond : string -> string -> nat -> string -> Handler.ResponseBody)
    (fileName : string) (data : list byte) (w : ResponseWriter) (s : World) :
  Status w = None ->
  Status (fst (Handler.storeUpload env dir elementName respond fileName data w s)) = Some 200
  /\ RespHeader (fst (Handler.storeUpload env dir elementName respond fileName data w s))
       !! "Content-Type" = Some "text/xml; charset=utf-8".
Proof.
  intros H. unfold Handler.storeUpload, MkdirAll, WriteFile.
  destruct (MkdirAll_error env); [apply Status_sendSOAPError, H|].
  destruct (WriteFile_error env);
    [apply Status_sendSOAPError, H | apply Status_sendSOAPResponse, H].
Qed.

Lemma Status_GetUser (w : ResponseWriter) (r : Request) (s : World) :
  Status w = None ->
  Status (fst (Handler.GetUser w r s)) = Some 200
  /\ RespHeader (fst (Handler.GetUser w r s)) !! "Content-Type"
     = Some "text/xml; charset=utf-8".
Proof.
  intros H. unfold Handler.GetUser.
  destruct (xml_Decode_GetUser (Body r)); [|apply Status_sendSOAPError, H].
  destruct (userDB s !! _);
    [apply Status_sendSOAPResponse, H | apply Status_sendSOAPError, H].
Qed.

Lemma Status_UploadFile (env : Env) (dir : string) (w : ResponseWriter) (r : Request)
    (s : World) :
  Status w = None ->
  Status (fst (Handler.UploadFile env dir w r s)) = Some 200
  /\ RespHeader (fst (Handler.UploadFile env dir w r s)) !! "Content-Type"
     = Some "text/xml; charset=utf-8".
Proof.
  intros H. unfold Handler.UploadFile.
  destruct (xml_Decode_UploadFile (Body r)); [|apply Status_sendSOAPError, H].
  destruct (String.eqb _ _); [apply Status_sendSOAPError, H|].
  destruct (String.eqb _ _); [apply Status_sendSOAPError, H|].
  destruct (Base64.DecodeString _); [|apply Status_sendSOAPError, H].
  apply Status_storeUpload, H.
Qed.

Lemma Status_UploadFileMTOM (env : Env) (dir : string) (w : ResponseWriter) (r : Request)
    (s : World) :
  Status w = None ->
  Status (fst (Handler.UploadFileMTOM env dir w r s)) = Some 200
  /\ RespHeader (fst (Handler.UploadFileMTOM env dir w r s)) !! "Content-Type"
     = Some "text/xml; charset=utf-8".
Proof.
  intros H. unfold Handler.UploadFileMTOM.
  destruct (HasPrefix _ _);
    [destruct (Handler.parseMTOMRequest r) as [[fileName fileData]|]
    |destruct (Handler.parseBase64SOAPRequest r) as [[fileName fileData]|]];
    try (apply Status_sendSOAPError, H);
    (destruct (String.eqb _ _); [apply Status_sendSOAPError, H|]);
    (destruct (Nat.eqb _ _); [apply Status_sendSOAPError, H|]);
    apply Status_storeUpload, H.
Qed.

End Endpoint.

(** X4: a request whose method is not POST is answered
    with status 405 and the plain text [Method not allowed. Use POST.],
    whatever its headers and body; no handler runs and the world is left as
    it was. *)
Theorem non_POST_is_rejected {L : Libs} (env : Env) (w : ResponseWriter) (r : Request)
    (s : World) :
  Method r <> MethodPost ->
  Main.route r = Main.MethodNotAllowed
  /\ Main.soapEndpoint env w r s
     = (Error w "Method not allowed. Use POST." StatusMethodNotAllowed, s).
Proof.
  intros Hm.
  assert (Hr : Main.route r = Main.MethodNotAllowed).
  { unfold Main.route. apply String.eqb_neq in Hm. rewrite Hm. reflexivity. }
  split; [exact Hr|]. unfold Main.soapEndpoint. rewrite Hr. reflexivity.
Qed.

Lemma non_POST_is_rejected_witness :
  let L := Sample.libs "1" "a.txt" "aGVsbG8=" [] in
  let r := mkRequest "GET" (list_to_map [("SOAPAction", Main.actionGetUser)])
             (NewReader (Sample.getUserXML "1")) in
  Status (fst (Main.soapEndpoint Sample.env newResponseWriter r initial_World)) = Some 405.
Proof.
  intros L r.
  rewrite (proj2 (non_POST_is_rejected (L := L) Sample.env newResponseWriter r
                    initial_World ltac:(discriminate))).
  reflexivity.
Defined.

(** X5: when the fallback selects an operation,
    the handler is called with the same method and headers and with a body
    that is a prefix of the original body of at most 512 bytes; the whole
    body reaches the handler when it arrives in one piece of at most 512
    bytes. *)
Theorem sniffed_body_is_a_prefix (r r' : Request) (op : Operation) :
  Main.sniff r = call op r' ->
  Method r' = Method r /\ ReqHeader r' = ReqHeader r
  /\ (exists rest, content (Body r) = content (Body r') ++ rest)
  /\ length (content (Body r')) <= 512
  /\ (forall c, chunks (Body r) = [c] -> length c <= 512 ->
                content (Body r') = content (Body r)).
Proof.
  intros Hs. rewrite (sniff_request r r' op Hs). cbn [set_Body Method ReqHeader Body].
  rewrite content_newReadCloser.
  destruct (Read 512 (Body r)) as [buf rd'] eqn:Hread. cbn [fst].
  destruct (Read_splits 512 (Body r) rd' buf Hread) as [Hsplit Hlen].
  repeat split.
  - exists (content rd'). exact Hsplit.
  - exact Hlen.
  - intros c Hc Hle. unfold Read in Hread. rewrite Hc in Hread.
    apply Nat.leb_le in Hle. rewrite Hle in Hread.
    injection Hread as <- _. unfold content. rewrite Hc. cbn.
    rewrite app_nil_r. reflexivity.
Qed.

Lemma sniffed_body_is_a_prefix_witness :
  let r := Sample.post [] (Sample.getUserXML "1") in
  exists r', Main.sniff r = Main.CallGetUser r'
             /\ content (Body r') = content (Body r).
Proof.
  intros r.
  destruct (Main.sniff r) as [| r' | r' | r' |] eqn:Hs;
    try (vm_compute in Hs; discriminate Hs).
  exists r'. split; [reflexivity|].
  destruct (sniffed_body_is_a_prefix r r' OpGetUser Hs) as (_ & _ & _ & _ & Hall).
  apply (Hall (bytes_of_string (Sample.getUserXML "1"))); [reflexivity|].
  vm_compute. lia.
Defined.

(** X6: every POST request, whether it succeeds or
    ends in a Client or Server fault, is answered with status 200 and
    content type [text/xml; charset=utf-8]; faults are not signalled by the
    HTTP status. *)
Theorem POST_is_answered_200 {L : Libs} (env : Env) (r : Request) (s : World) :
  Method r = MethodPost ->
  Status (fst (Main.soapEndpoint env newResponseWriter r s)) = Some 200
  /\ RespHeader (fst (Main.soapEndpoint env newResponseWriter r s)) !! "Content-Type"
     = Some "text/xml; charset=utf-8".
Proof.
  intros Hm. unfold Main.soapEndpoint.
  destruct (Main.route r) as [| r' | r' | r' |] eqn:Hr.
  - unfold Main.route in Hr. rewrite Hm in Hr. cbn in Hr.
    unfold Main.sniff in Hr. destruct (Read 512 (Body r)).
    repeat match type of Hr with
           | context [if ?b then _ else _] => destruct b
           end; discriminate Hr.
  - apply Status_GetUser. reflexivity.
  - apply Status_UploadFile. reflexivity.
  - apply Status_UploadFileMTOM. reflexivity.
  - split; [reflexivity|]. cbn. apply lookup_insert_eq.
Qed.

Lemma POST_is_answered_200_witness :
  let L := Sample.libs "9" "a.txt" "aGVsbG8=" [] in
  let r := Sample.post [("SOAPAction", Main.actionGetUser)] (Sample.getUserXML "9") in
  Status (fst (Main.soapEndpoint Sample.env newResponseWriter r initial_World)) = Some 200
  /\ Contains (Written (fst (Main.soapEndpoint Sample.env newResponseWriter r initial_World)))
       "<faultstring>User not found</faultstring>" = true.
Proof.
  intros L r. split; [|vm_compute; reflexivity].
  apply (POST_is_answered_200 (L := L) Sample.env r initial_World). reflexivity.
Defined.

(** *** The lookup *)

Section Lookup.
Context `{L : Libs}.

(** Every record of the table is filed under its own identifier, and the
    identifiers are 1, 2 and 3. *)
Lemma initial_userDB_keys (id : string) (u : User) :
  initial_userDB !! id = Some u ->
  User_ID u = id /\ (id = "1" \/ id = "2" \/ id = "3").
Proof.
  unfold initial_userDB. intros H.
  apply lookup_insert_Some in H as [[<- <-]|[_ H]]; [split; [reflexivity|auto]|].
  apply lookup_insert_Some in H as [[<- <-]|[_ H]]; [split; [reflexivity|auto]|].
  apply lookup_insert_Some in H as [[<- <-]|[_ H]]; [split; [reflexivity|auto]|].
  rewrite lookup_empty in H. discriminate H.
Qed.

End Lookup.

(** X7: on the server started with its table,
    after any sequence of requests, a lookup whose envelope decodes to the
    identifier [id] changes nothing and answers either with the Client fault
    [User not found] naming [id], or with the record of the table whose
    identifier is [id], which is one of 1, 2 and 3. *)
Theorem GetUser_after_any_requests {L : Libs} (reqs : list (Env * Request))
    (w : ResponseWriter) (r : Request) (req : GetUserRequest) :
  xml_Decode_GetUser (Body r) = Ok req ->
  let s := snd (Main.serve reqs initial_World) in
  let id := GetUserRequest_ID req in
  (initial_userDB !! id = None
   /\ Handler.GetUser w r s
      = (Handler.sendSOAPError w "Client" "User not found"
           ("User with ID " +:+ id +:+ " not found"), s))
  \/ (exists u,
        initial_userDB !! id = Some u
        /\ (id = "1" \/ id = "2" \/ id = "3")
        /\ Handler.GetUser w r s
           = (Handler.sendSOAPResponse w "GetUserResponse"
                (Handler.BodyGetUser
                   (Handler.mkGetUserResponse id (User_Name u) (User_Email u)
                      (User_CreatedAt u))), s)).
Proof.
  intros Hdec s id.
  assert (Hdb : userDB s = initial_userDB) by apply serve_userDB.
  unfold Handler.GetUser. rewrite Hdec, Hdb. fold id.
  destruct (initial_userDB !! id) as [u|] eqn:Hu.
  - right. exists u. destruct (initial_userDB_keys id u Hu) as [Hid Hkeys].
    rewrite Hid. auto.
  - left. auto.
Qed.

Lemma GetUser_after_any_requests_witness :
  let L := Sample.libs "2" "a.txt" "aGVsbG8=" [] in
  let r := Sample.post [("SOAPAction", Main.actionGetUser)] (Sample.getUserXML "2") in
  Contains (Written (fst (Handler.GetUser newResponseWriter r
                            (snd (Main.serve [(Sample.env, r); (Sample.env, r)]
                                    initial_World)))))
    "<email>kim@example.com</email>" = true.
Proof.
  intros L r.
  destruct (GetUser_after_any_requests (L := L) [(Sample.env, r); (Sample.env, r)]
              newResponseWriter r (mkGetUserRequest "2") eq_refl)
    as [[Hnone _]|(u & Hu & _ & Hans)].
  - vm_compute in Hnone. discriminate Hnone.
  - rewrite Hans. vm_compute in Hu. injection Hu as <-. vm_compute. reflexivity.
Defined.

(** *** The uploads *)

Section Uploads.
Context `{L : Libs}.

(** What [storeUpload] does to the files: nothing when the environment
    reports an error, one file written otherwise. *)
Lemma storeUpload_files (env : Env) (dir elementName : string)
    (respond : string -> string -> nat -> string -> Handler.ResponseBody)
    (fileName : string) (data : list byte) (w : ResponseWriter) (s : World) :
  files (snd (Handler.storeUpload env dir elementName respond fileName data w s))
  = match MkdirAll_error env, WriteFile_error env with
    | None, None => <[storedPath env dir fileName := data]> (files s)
    | _, _ => files s
    end.
Proof.
  unfold Handler.storeUpload, MkdirAll, WriteFile, storedPath.
  destruct (MkdirAll_error env); [reflexivity|].
  destruct (WriteFile_error env); reflexivity.
Qed.

Lemma EncodeToString_nonempty (b : list byte) :
  b <> [] -> Base64.EncodeToString b <> EmptyString.
Proof.
  destruct b as [|x [|y [|z rest]]]; intros H; [contradiction H; reflexivity | | | ];
    cbn; discriminate.
Qed.

End Uploads.

(** X8: when a client sends a file name and the
    base64 text of a non-empty byte sequence [b], and the file system
    reports no error, [UploadFile] creates the upload directory, stores
    exactly [b] under the path built from the directory, the drawn
    identifier and the sanitized name, leaves every other file and the user
    table alone, and answers with the identifier, the name as sent, the
    size [length b] and the public path. *)
Theorem UploadFile_round_trip {L : Libs} (env : Env) (dir : string) (w : ResponseWriter)
    (r : Request) (s : World) (req : UploadFileRequest) (b : list byte) :
  xml_Decode_UploadFile (Body r) = Ok req ->
  UploadFileRequest_FileName req <> EmptyString ->
  UploadFileRequest_FileData req = Base64.EncodeToString b ->
  b <> [] ->
  MkdirAll_error env = None ->
  WriteFile_error env = None ->
  let name := UploadFileRequest_FileName req in
  Handler.UploadFile env dir w r s
  = (Handler.sendSOAPResponse w "UploadFileResponse"
       (Handler.BodyUploadFile
          (Handler.mkUploadFileResponse (uuid_New env) name (length b)
             ("/uploads/" +:+ uuid_New env +:+ "_" +:+ Handler.sanitizeFileName name))),
     mkWorld (userDB s) ({[dir]} ∪ dirs s) (<[storedPath env dir name := b]> (files s)))
  /\ files (snd (Handler.UploadFile env dir w r s)) !! storedPath env dir name = Some b.
Proof.
  intros Hdec Hname Hdata Hb Hmk Hwr name.
  assert (Heq : Handler.UploadFile env dir w r s
    = (Handler.sendSOAPResponse w "UploadFileResponse"
         (Handler.BodyUploadFile
            (Handler.mkUploadFileResponse (uuid_New env) name (length b)
               ("/uploads/" +:+ uuid_New env +:+ "_" +:+ Handler.sanitizeFileName name))),
       mkWorld (userDB s) ({[dir]} ∪ dirs s) (<[storedPath env dir name := b]> (files s)))).
  { unfold Handler.UploadFile. rewrite Hdec. fold name.
    apply String.eqb_neq in Hname. fold name in Hname. rewrite Hname.
    pose proof (EncodeToString_nonempty b Hb) as Hne. rewrite <- Hdata in Hne.
    apply String.eqb_neq in Hne. rewrite Hne.
    rewrite Hdata. unfold Base64.DecodeString.
    rewrite (Base64Facts.decode_encode_from (length b) b 0 (le_n _)).
    unfold Handler.storeUpload, MkdirAll, WriteFile, storedPath.
    rewrite Hmk, Hwr. reflexivity. }
  split; [exact Heq|]. rewrite Heq. cbn [snd files]. apply lookup_insert_eq.
Qed.

Lemma UploadFile_round_trip_witness :
  let L := Sample.libs "1" "notes.txt" "aGVsbG8=" [] in
  let r := Sample.post [("SOAPAction", Main.actionUploadFile)]
             (Sample.envelopeXML "<UploadFileRequest/>") in
  files (snd (Handler.UploadFile Sample.env Main.uploadDir newResponseWriter r initial_World))
    !! storedPath Sample.env Main.uploadDir "notes.txt"
  = Some (bytes_of_string "hello").
Proof.
  intros L r.
  refine (proj2 (UploadFile_round_trip (L := L) Sample.env Main.uploadDir
            newResponseWriter r initial_World (mkUploadFileRequest "notes.txt" "aGVsbG8=")
            (bytes_of_string "hello") _ _ _ _ _ _)); try reflexivity; discriminate.
Defined.

Section UploadInvariants.
Context `{L : Libs}.

Lemma storeUpload_dirs (env : Env) (dir elementName : string)
    (respond : string -> string -> nat -> string -> Handler.ResponseBody)
    (fileName : string) (data : list byte) (w : ResponseWriter) (s : World) :
  dirs (snd (Handler.storeUpload env dir elementName respond fileName data w s))
  = match MkdirAll_error env with
    | None => {[dir]} ∪ dirs s
    | Some _ => dirs s
    end.
Proof.
  unfold Handler.storeUpload, MkdirAll, WriteFile.
  destruct (MkdirAll_error env); [reflexivity|].
  destruct (WriteFile_error env); reflexivity.
Qed.

(** The world after [storeUpload] does not depend on how the answer is
    rendered. *)
Lemma storeUpload_world (env : Env) (dir e1 e2 : string)
    (respond1 respond2 : string -> string -> nat -> string -> Handler.ResponseBody)
    (fileName : string) (data : list byte) (w1 w2 : ResponseWriter) (s : World) :
  snd (Handler.storeUpload env dir e1 respond1 fileName data w1 s)
  = snd (Handler.storeUpload env dir e2 respond2 fileName data w2 s).
Proof.
  unfold Handler.storeUpload, MkdirAll, WriteFile.
  destruct (MkdirAll_error env); [reflexivity|].
  destruct (WriteFile_error env); reflexivity.
Qed.

Lemma storeUpload_wroteAtMost (env : Env) (dir elementName : string)
    (respond : string -> string -> nat -> string -> Handler.ResponseBody)
    (fileName : string) (data : list byte) (w : ResponseWriter) (s : World)
    (P : string -> list byte -> Prop) :
  P fileName data ->
  wroteAtMost env dir s
    (snd (Handler.storeUpload env dir elementName respond fileName data w s)) P.
Proof.
  intros HP. unfold wroteAtMost. rewrite storeUpload_files.
  destruct (MkdirAll_error env); [left; reflexivity|].
  destruct (WriteFile_error env); [left; reflexivity|].
  right. repeat split. exists fileName, data. split; [exact HP | reflexivity].
Qed.

Lemma UploadFile_wroteAtMost (env : Env) (dir : string) (w : ResponseWriter)
    (r : Request) (s : World) :
  wroteAtMost env dir s (snd (Handler.UploadFile env dir w r s))
    (fun name _ => name <> EmptyString).
Proof.
  unfold Handler.UploadFile.
  destruct (xml_Decode_UploadFile (Body r)) as [req|]; [|left; reflexivity].
  destruct (String.eqb_spec (UploadFileRequest_FileName req) EmptyString);
    [left; reflexivity|].
  destruct (String.eqb _ _); [left; reflexivity|].
  destruct (Base64.DecodeString _); [|left; reflexivity].
  apply (storeUpload_wroteAtMost env dir _ _ _ _ w s (fun name _ => name <> EmptyString)).
  assumption.
Qed.

Lemma UploadFileMTOM_wroteAtMost (env : Env) (dir : string) (w : ResponseWriter)
    (r : Request) (s : World) :
  wroteAtMost env dir s (snd (Handler.UploadFileMTOM env dir w r s))
    (fun name data => name <> EmptyString /\ data <> []).
Proof.
  unfold Handler.UploadFileMTOM.
  destruct (HasPrefix _ _);
    [destruct (Handler.parseMTOMRequest r) as [[fileName fileData]|]
    |destruct (Handler.parseBase64SOAPRequest r) as [[fileName fileData]|]];
    try (left; reflexivity);
    (destruct (String.eqb_spec fileName EmptyString); [left; reflexivity|]);
    (destruct fileData as [|x fileData]; [left; reflexivity|]);
    cbn [length Nat.eqb];
    apply (storeUpload_wroteAtMost env dir _ _ fileName (x :: fileData) w s
             (fun name data => name <> EmptyString /\ data <> []));
    (split; [assumption | discriminate]).
Qed.

End UploadInvariants.

Lemma soapEndpoint_wroteAtMost {L : Libs} (env : Env) (w : ResponseWriter)
    (r : Request) (s : World) :
  wroteAtMost env Main.uploadDir s (snd (Main.soapEndpoint env w r s))
    (fun name _ => name <> EmptyString).
Proof.
  unfold Main.soapEndpoint. destruct (Main.route r) as [| r' | r' | r' |].
  - left. reflexivity.
  - left. rewrite GetUser_userDB. reflexivity.
  - apply UploadFile_wroteAtMost.
  - destruct (UploadFileMTOM_wroteAtMost env Main.uploadDir w r' s)
      as [H|(Hm & Hw & name & data & [Hn _] & H)].
    + left. exact H.
    + right. repeat split; try assumption. exists name, data. split; assumption.
  - left. reflexivity.
Qed.

Lemma soapEndpoint_dirs {L : Libs} (env : Env) (w : ResponseWriter) (r : Request)
    (s : World) :
  dirs s ⊆ dirs (snd (Main.soapEndpoint env w r s)).
Proof.
  unfold Main.soapEndpoint. destruct (Main.route r) as [| r' | r' | r' |];
    try reflexivity.
  - rewrite GetUser_userDB. reflexivity.
  - unfold Handler.UploadFile.
    destruct (xml_Decode_UploadFile (Body r')); [|reflexivity].
    destruct (String.eqb _ _); [reflexivity|].
    destruct (String.eqb _ _); [reflexivity|].
    destruct (Base64.DecodeString _); [|reflexivity].
    rewrite storeUpload_dirs. destruct (MkdirAll_error env); set_solver.
  - unfold Handler.UploadFileMTOM.
    destruct (HasPrefix _ _);
      [destruct (Handler.parseMTOMRequest r') as [[fileName fileData]|]
      |destruct (Handler.parseBase64SOAPRequest r') as [[fileName fileData]|]];
      try reflexivity;
      (destruct (String.eqb _ _); [reflexivity|]);
      (destruct (Nat.eqb _ _); [reflexivity|]);
      rewrite storeUpload_dirs; destruct (MkdirAll_error env); set_solver.
Qed.

(** X9: provided [os.WriteFile] reports no error during the request, the
    endpoint leaves the files as they were or writes exactly one file; it
    writes only when [os.MkdirAll] reported no error and a non-empty file
    name was sent, and then under the upload directory, the drawn
    identifier and the sanitized name. *)
Theorem request_writes_at_most_one_file {L : Libs} (env : Env) (w : ResponseWriter)
    (r : Request) (s : World) :
  WriteFile_error env = None ->
  files (snd (Main.soapEndpoint env w r s)) = files s
  \/ (MkdirAll_error env = None
      /\ exists name data,
           name <> EmptyString
           /\ files (snd (Main.soapEndpoint env w r s))
              = <[storedPath env Main.uploadDir name := data]> (files s)).
Proof.
  intros _.
  destruct (soapEndpoint_wroteAtMost env w r s)
    as [H|(Hm & _ & name & data & Hn & H)].
  - left. exact H.
  - right. split; [exact Hm|]. exists name, data. split; assumption.
Qed.

Lemma request_writes_at_most_one_file_witness :
  let L := Sample.libs "1" "notes.txt" "aGVsbG8=" [] in
  let r := Sample.post [("SOAPAction", Main.actionUploadFile)]
             (Sample.envelopeXML "<UploadFileRequest/>") in
  files (snd (Main.soapEndpoint Sample.env newResponseWriter r initial_World))
  = files initial_World
  \/ (MkdirAll_error Sample.env = None
      /\ exists name data,
           name <> EmptyString
           /\ files (snd (Main.soapEndpoint Sample.env newResponseWriter r initial_World))
              = <[storedPath Sample.env Main.uploadDir name := data]>
                  (files initial_World)).
Proof.
  intros L r.
  apply (request_writes_at_most_one_file (L := L) Sample.env newResponseWriter r
           initial_World).
  reflexivity.
Defined.

(** X10: no request deletes anything: a file or
    directory present before a sequence of requests is present after it. *)
Theorem stored_files_persist {L : Libs} (reqs : list (Env * Request)) (s : World)
    (path : string) :
  is_Some (files s !! path) ->
  is_Some (files (snd (Main.serve reqs s)) !! path)
  /\ dirs s ⊆ dirs (snd (Main.serve reqs s)).
Proof.
  revert s. induction reqs as [|[env r] reqs IH]; intros s Hp; cbn [Main.serve].
  - split; [exact Hp | reflexivity].
  - destruct (Main.soapEndpoint env newResponseWriter r s) as [w s1] eqn:H1.
    destruct (Main.serve reqs s1) as [ws s2] eqn:H2. cbn [snd].
    assert (Hs1 : s1 = snd (Main.soapEndpoint env newResponseWriter r s))
      by (rewrite H1; reflexivity).
    assert (Hs2 : s2 = snd (Main.serve reqs s1)) by (rewrite H2; reflexivity).
    assert (Hp1 : is_Some (files s1 !! path)).
    { pose proof (soapEndpoint_wroteAtMost env newResponseWriter r s) as Hw.
      rewrite <- Hs1 in Hw. destruct Hw as [Heq|(_ & _ & name & data & _ & Heq)];
        rewrite Heq; [exact Hp|].
      rewrite lookup_insert. case_decide; [eexists; reflexivity | exact Hp]. }
    destruct (IH s1 Hp1) as [Hfiles Hdirs]. rewrite <- Hs2 in Hfiles, Hdirs.
    split; [exact Hfiles|].
    pose proof (soapEndpoint_dirs env newResponseWriter r s) as Hd.
    rewrite <- Hs1 in Hd. transitivity (dirs s1); assumption.
Qed.

Lemma stored_files_persist_witness :
  let L := Sample.libs "1" "notes.txt" "aGVsbG8=" [] in
  let r := Sample.post [("SOAPAction", Main.actionUploadFile)]
             (Sample.envelopeXML "<UploadFileRequest/>") in
  let s := mkWorld initial_userDB ∅ {[ "kept.bin" := [x00] ]} in
  is_Some (files (snd (Main.serve [(Sample.env, r); (Sample.env, r)] s)) !! "kept.bin").
Proof.
  intros L r s.
  refine (proj1 (stored_files_persist (L := L) [(Sample.env, r); (Sample.env, r)] s
                   "kept.bin" _)).
  eexists. reflexivity.
Defined.


(** [UploadFile] validates the text, not the bytes: a [fileData] holding a
    line feed only passes and an empty file is stored. *)
Example UploadFile_stores_empty :
  let L := Sample.libs "1" "empty.bin" nl [] in
  let r := Sample.post [("SOAPAction", Main.actionUploadFile)]
             (Sample.envelopeXML "<UploadFileRequest/>") in
  files (snd (Handler.UploadFile Sample.env Main.uploadDir newResponseWriter r initial_World))
    !! storedPath Sample.env Main.uploadDir "empty.bin" = Some [].
Proof. reflexivity. Qed.

(** X12: for the same file name and base64 text, the
    plain (non-multipart) path of [UploadFileMTOM] leaves the world exactly
    as [UploadFile] does, in every case of success and failure, provided the
    text is not one that is non-empty and decodes to no bytes. *)
Theorem upload_handlers_agree {L : Libs} (env : Env) (dir : string)
    (w1 w2 : ResponseWriter) (r1 r2 : Request) (s : World) (fileName fileData : string) :
  xml_Decode_UploadFile (Body r1) = Ok (mkUploadFileRequest fileName fileData) ->
  xml_Decode_UploadFileMTOM (Body r2) = Ok (mkUploadFileMTOMRequest fileName fileData) ->
  HasPrefix (Header_Get (ReqHeader r2) "Content-Type") "multipart/related" = false ->
  (Base64.DecodeString fileData = Ok [] -> fileData = EmptyString) ->
  snd (Handler.UploadFile env dir w1 r1 s) = snd (Handler.UploadFileMTOM env dir w2 r2 s).
Proof.
  intros H1 H2 Hct Hempty.
  unfold Handler.UploadFile, Handler.UploadFileMTOM, Handler.parseBase64SOAPRequest.
  rewrite H1, H2, Hct.
  cbn [UploadFileRequest_FileName UploadFileRequest_FileData
       UploadFileMTOMRequest_FileName UploadFileMTOMRequest_FileData].
  destruct (Base64.DecodeString fileData) as [data|e] eqn:Hdec.
  - destruct (String.eqb_spec fileName EmptyString) as [Hn|Hn]; [reflexivity|].
    destruct (String.eqb_spec fileData EmptyString) as [Hd|Hd].
    + subst fileData. vm_compute in Hdec. injection Hdec as <-. reflexivity.
    + destruct data as [|x data]; [destruct (Hd (Hempty eq_refl))|].
      cbn [length Nat.eqb]. apply storeUpload_world.
  - destruct (String.eqb _ _); [reflexivity|].
    destruct (String.eqb _ _); reflexivity.
Qed.

Lemma upload_handlers_agree_witness :
  let L := Sample.libs "1" "a.txt" "aGVsbG8=" [] in
  let r := Sample.post [] (Sample.envelopeXML "<UploadFileRequest/>") in
  snd (Handler.UploadFile Sample.env Main.uploadDir newResponseWriter r initial_World)
  = snd (Handler.UploadFileMTOM Sample.env Main.uploadDir newResponseWriter r initial_World).
Proof.
  intros L r.
  apply (upload_handlers_agree (L := L) Sample.env Main.uploadDir newResponseWriter
           newResponseWriter r r initial_World "a.txt" "aGVsbG8=");
    try reflexivity.
  intros H. vm_compute in H. discriminate H.
Defined.

(** *** The multipart path *)

Section MoreMTOM.
Context `{L : Libs}.
Import Handler.

Lemma findPart_first (before after : list MultipartPart) (p : MultipartPart) (X : string) :
  ContentID p = X ->
  Forall (fun q => ContentID q <> X) before ->
  findPart (before ++ p :: after) X = Some (Data p).
Proof.
  intros Hp Hbefore. induction Hbefore as [|q before Hq _ IH]; cbn.
  - apply String.eqb_eq in Hp. rewrite Hp. reflexivity.
  - apply String.eqb_neq in Hq. rewrite Hq. exact IH.
Qed.

(** A reader that ends in an error makes the loop fail, whatever it has
    collected. *)
Lemma readParts_final_error (next : list Part) (e : string) :
  forall acc sp,
    Forall (fun p => is_ok (PartBody p) = true) next ->
    readParts next (Some e) acc sp = Err ("failed to read multipart part: " +:+ e).
Proof.
  induction next as [|part next IH]; intros acc sp Hall; cbn; [reflexivity|].
  inversion Hall as [|? ? Hok Hrest]; subst.
  destruct (PartBody part); [|discriminate Hok].
  destruct (isSOAPPart _); apply IH, Hrest.
Qed.

Lemma spanNonQuote_quoteFree (s : string) :
  quoteFree (fst (Regexp.spanNonQuote s)) = true.
Proof.
  induction s as [|c s IH]; cbn; [reflexivity|].
  destruct (Regexp.isQuote c) eqn:Hc; [reflexivity|].
  destruct (Regexp.spanNonQuote s) as [run rest]. cbn in IH |- *.
  rewrite Hc, IH. reflexivity.
Qed.

Lemma matchHere_group (s : string) (q : ascii) (id : string) :
  Regexp.matchHere s = Some (q, id) -> id <> EmptyString /\ quoteFree id = true.
Proof.
  unfold Regexp.matchHere.
  destruct (Regexp.cutPrefix "href=" s) as [[|q0 s1]|]; try discriminate.
  destruct (Regexp.isQuote q0); [|discriminate].
  destruct (Regexp.cutPrefix "cid:" s1) as [s2|]; [|discriminate].
  pose proof (spanNonQuote_quoteFree s2) as Hfree.
  destruct (Regexp.spanNonQuote s2) as [[|c run] [|c' rest]]; try discriminate.
  intros [= _ <-]. split; [discriminate | exact Hfree].
Qed.

Lemma FindStringSubmatch_group (s : string) (m0 m1 : string) (ms : list string) :
  Regexp.FindStringSubmatch s = m0 :: m1 :: ms ->
  m1 <> EmptyString /\ quoteFree m1 = true.
Proof.
  induction s as [|c s IH]; cbn [Regexp.FindStringSubmatch].
  - destruct (Regexp.matchHere EmptyString) as [[q id]|] eqn:Hm; [|discriminate].
    intros [= _ <- _]. apply (matchHere_group _ _ _ Hm).
  - destruct (Regexp.matchHere (String c s)) as [[q id]|] eqn:Hm; [|exact IH].
    intros [= _ <- _]. apply (matchHere_group _ _ _ Hm).
Qed.

End MoreMTOM.

Lemma parseMTOMRequest_first_match {L : Libs} (r : Request) (next : list Part)
    (parts : list Handler.MultipartPart) (soapPart fileName X : string)
    (before after : list Handler.MultipartPart) (p : Handler.MultipartPart) :
  parsesTo r next parts soapPart ->
  Handler.parseMTOMSOAPEnvelope soapPart = Ok (fileName, [X]) ->
  attachments next = before ++ p :: after ->
  Handler.ContentID p = X ->
  Forall (fun q => Handler.ContentID q <> X) before ->
  Handler.parseMTOMRequest r
  = if Nat.eqb (length (Handler.Data p)) 0
    then Err "no file data found in MTOM request"
    else Ok (fileName, Handler.Data p).
Proof.
  intros Hparsed Hrefs Hsplit Hp Hbefore.
  rewrite (parseMTOMRequest_parsed r next parts soapPart Hparsed), Hrefs.
  destruct Hparsed as (? & ? & ? & ? & final & _ & _ & _ & _ & Hloop).
  apply readParts_attachments in Hloop. cbn [app] in Hloop. subst parts.
  cbn [Handler.resolveRefs].
  rewrite Hsplit, (findPart_first before after p X Hp Hbefore). reflexivity.
Qed.

(** The extractor finds the reference the decoded text names. *)
Lemma parseMTOMSOAPEnvelope_text {L : Libs} (soapPart fileName X : string) :
  textReferences soapPart fileName X ->
  Handler.parseMTOMSOAPEnvelope soapPart = Ok (fileName, [X]).
Proof.
  intros (envelope & pre & q & q' & rest & Hxml & Hname & Htext & Hinc & Hpre
          & Hq & Hq' & Hne & Hfree).
  unfold Handler.parseMTOMSOAPEnvelope. rewrite Hxml, Hname, Hinc, orb_true_r, Htext.
  destruct (RegexpFacts.FindStringSubmatch_first pre q q' X rest Hpre Hq Hq' Hne Hfree)
    as [whole Hwhole].
  rewrite Hwhole. reflexivity.
Qed.

(** The sample control part whose decoded [fileData] text is the markup of
    an include naming [att1]. *)
Lemma Sample_textReferences (parts : list Part) :
  @textReferences (Sample.libs "1" "a.txt" (Sample.includeText "att1") parts)
    "x" "a.txt" "att1".
Proof.
  exists (mkUploadFileMTOMRequest "a.txt" (Sample.includeText "att1")),
    "<xop:Include ", "034"%char, "034"%char, "/>".
  repeat split; try reflexivity. discriminate.
Qed.

(** X13: when the multipart parser has accepted the request and the decoded
    text of the control part's [fileData] field holds an include marker
    naming [X] (the markup sent as character data; an include sent as child
    element leaves the text empty and no reference is found), the first
    attachment part named [X] decides the outcome: its data is returned
    with the file name, unless it is empty, in which case the request fails
    with [no file data found in MTOM request]. *)
Theorem resolution_by_first_match {L : Libs} (r : Request) (next : list Part)
    (parts : list Handler.MultipartPart) (soapPart fileName X : string)
    (before after : list Handler.MultipartPart) (p : Handler.MultipartPart) :
  parsesTo r next parts soapPart ->
  textReferences soapPart fileName X ->
  attachments next = before ++ p :: after ->
  Handler.ContentID p = X ->
  Forall (fun q => Handler.ContentID q <> X) before ->
  Handler.parseMTOMRequest r
  = if Nat.eqb (length (Handler.Data p)) 0
    then Err "no file data found in MTOM request"
    else Ok (fileName, Handler.Data p).
Proof.
  intros Hparsed Htext Hsplit Hp Hbefore.
  apply (parseMTOMRequest_first_match r next parts soapPart fileName X before after p
           Hparsed (parseMTOMSOAPEnvelope_text soapPart fileName X Htext)
           Hsplit Hp Hbefore).
Qed.

Lemma resolution_by_first_match_witness :
  (let L := Sample.libs "1" "a.txt" (Sample.includeText "att1")
              [Sample.part "<root>" "application/xop+xml" "x";
               Sample.part "<att1>" "application/octet-stream" "hello"] in
   Handler.parseMTOMRequest (Sample.post Sample.mtomHeaders Sample.multipartBody)
   = Ok ("a.txt", bytes_of_string "hello"))
  /\ (let L := Sample.libs "1" "a.txt" (Sample.includeText "att1")
                 [Sample.part "<root>" "application/xop+xml" "x";
                  Sample.part "<att1>" "application/octet-stream" EmptyString;
                  Sample.part "<att1>" "application/octet-stream" "hello"] in
      Handler.parseMTOMRequest (Sample.post Sample.mtomHeaders Sample.multipartBody)
      = Err "no file data found in MTOM request").
Proof.
  split; intros L.
  - refine (resolution_by_first_match (L := L)
              (Sample.post Sample.mtomHeaders Sample.multipartBody)
              [Sample.part "<root>" "application/xop+xml" "x";
               Sample.part "<att1>" "application/octet-stream" "hello"]
              [Handler.mkMultipartPart "att1" "application/octet-stream"
                 (bytes_of_string "hello")]
              "x" "a.txt" "att1" []
              []
              (Handler.mkMultipartPart "att1" "application/octet-stream"
                 (bytes_of_string "hello")) _ (Sample_textReferences _) _ _ _);
      try reflexivity; [|constructor].
    exists "multipart/related", {[ "boundary" := "MIME_boundary" ]}, "MIME_boundary",
      (bytes_of_string Sample.multipartBody), None.
    repeat split; reflexivity.
  - refine (resolution_by_first_match (L := L)
              (Sample.post Sample.mtomHeaders Sample.multipartBody)
              [Sample.part "<root>" "application/xop+xml" "x";
               Sample.part "<att1>" "application/octet-stream" EmptyString;
               Sample.part "<att1>" "application/octet-stream" "hello"]
              [Handler.mkMultipartPart "att1" "application/octet-stream" [];
               Handler.mkMultipartPart "att1" "application/octet-stream"
                 (bytes_of_string "hello")]
              "x" "a.txt" "att1" []
              [Handler.mkMultipartPart "att1" "application/octet-stream"
                 (bytes_of_string "hello")]
              (Handler.mkMultipartPart "att1" "application/octet-stream" [])
              _ (Sample_textReferences _) _ _ _);
      try reflexivity; [|constructor].
    exists "multipart/related", {[ "boundary" := "MIME_boundary" ]}, "MIME_boundary",
      (bytes_of_string Sample.multipartBody), None.
    repeat split; reflexivity.
Defined.

(** X14: a multipart/related request
    whose content type parses but has no [boundary] parameter is refused
    with the Client fault [Invalid MTOM request], detail [boundary not found
    in content-type], before the body is read; nothing is stored. *)
Theorem missing_boundary_is_a_client_fault {L : Libs} (env : Env) (dir : string)
    (w : ResponseWriter) (r : Request) (s : World) (mediatype : string)
    (params : gmap string string) :
  HasPrefix (Header_Get (ReqHeader r) "Content-Type") "multipart/related" = true ->
  mime_ParseMediaType (Header_Get (ReqHeader r) "Content-Type") = Ok (mediatype, params) ->
  params !! "boundary" = None ->
  Handler.UploadFileMTOM env dir w r s
  = (Handler.sendSOAPError w "Client" "Invalid MTOM request"
       "boundary not found in content-type", s).
Proof.
  intros Hct Hm Hb. apply UploadFileMTOM_parse_error; [exact Hct|].
  unfold Handler.parseMTOMRequest. rewrite Hm, Hb. reflexivity.
Qed.

Lemma missing_boundary_is_a_client_fault_witness :
  let L := Sample.libs "1" "a.txt" (Sample.includeText "att1")
             [Sample.part "<root>" "application/xop+xml" "x";
              Sample.part "<att1>" "application/octet-stream" "hello"] in
  let r := Sample.post [("Content-Type", "multipart/related")] Sample.multipartBody in
  snd (Handler.UploadFileMTOM Sample.env Main.uploadDir newResponseWriter r initial_World)
  = initial_World.
Proof.
  intros L r.
  rewrite (missing_boundary_is_a_client_fault (L := L) Sample.env Main.uploadDir
             newResponseWriter r initial_World "multipart/related" ∅);
    reflexivity.
Defined.

(** X15: when the multipart reader ends with
    an error instead of the end of the message (as on a message without its
    closing boundary), the request fails with [failed to read multipart
    part:] and that error, even if every part, the referenced attachment
    included, was read completely. *)
Theorem reader_error_fails_the_request {L : Libs} (r : Request) (mediatype : string)
    (params : gmap string string) (boundary : string) (body : list byte)
    (next : list Part) (e : string) :
  mime_ParseMediaType (Header_Get (ReqHeader r) "Content-Type") = Ok (mediatype, params) ->
  params !! "boundary" = Some boundary ->
  ReadAll (Body r) = Ok body ->
  multipart_NewReader body boundary = (next, Some e) ->
  Forall (fun p => is_ok (PartBody p) = true) next ->
  Handler.parseMTOMRequest r = Err ("failed to read multipart part: " +:+ e).
Proof.
  intros Hm Hb Hr Hn Hall. unfold Handler.parseMTOMRequest.
  rewrite Hm, Hb, Hr, Hn, (readParts_final_error next e [] EmptyString Hall).
  reflexivity.
Qed.

Lemma reader_error_fails_the_request_witness :
  let L := cutOff (Sample.libs "1" "a.txt" (Sample.includeText "att1")
                     [Sample.part "<root>" "application/xop+xml" "x";
                      Sample.part "<att1>" "application/octet-stream" "hello"])
             "multipart: NextPart: EOF" in
  Handler.parseMTOMRequest (Sample.post Sample.mtomHeaders Sample.multipartBody)
  = Err "failed to read multipart part: multipart: NextPart: EOF".
Proof.
  intros L.
  apply (reader_error_fails_the_request (L := L)
           (Sample.post Sample.mtomHeaders Sample.multipartBody)
           "multipart/related" {[ "boundary" := "MIME_boundary" ]} "MIME_boundary"
           (bytes_of_string Sample.multipartBody)
           [Sample.part "<root>" "application/xop+xml" "x";
            Sample.part "<att1>" "application/octet-stream" "hello"]);
    try reflexivity.
  repeat constructor.
Defined.

(** X16: a reference extracted from the
    control part is never empty and holds no double or single quote. *)
Theorem reference_is_a_plain_identifier {L : Libs} (soapEnvelope fileName : string)
    (xopRefs : list string) :
  Handler.parseMTOMSOAPEnvelope soapEnvelope = Ok (fileName, xopRefs) ->
  Forall (fun X => X <> EmptyString /\ quoteFree X = true) xopRefs.
Proof.
  unfold Handler.parseMTOMSOAPEnvelope. intros H.
  destruct (xml_Unmarshal_UploadFileMTOM soapEnvelope) as [envelope|e]; [|discriminate H].
  injection H as _ <-. destruct (_ || _); [|constructor].
  destruct (Regexp.FindStringSubmatch _) as [|m0 [|m1 ms]] eqn:Hf; try constructor.
  - apply (FindStringSubmatch_group _ _ _ _ Hf).
  - constructor.
Qed.

Lemma reference_is_a_plain_identifier_witness :
  let L := Sample.libs "1" "a.txt" (Sample.includeText "att1") [] in
  Forall (fun X => X <> EmptyString /\ quoteFree X = true) ["att1"].
Proof.
  intros L.
  apply (reference_is_a_plain_identifier (L := L) "x" "a.txt" ["att1"]). reflexivity.
Defined.

Section TrimFacts.

Lemma length_TrimLeft (s cutset : string) :
  String.length (TrimLeft s cutset) <= String.length s.
Proof.
  induction s as [|c s IH]; cbn; [lia|]. destruct (inCutset c cutset); cbn; lia.
Qed.

Lemma length_TrimRight (s cutset : string) :
  String.length (TrimRight s cutset) <= String.length s.
Proof.
  induction s as [|c s IH]; cbn; [lia|].
  destruct (TrimRight s cutset); [destruct (inCutset c cutset)|]; cbn in *; lia.
Qed.

(** A trailing character of the cutset does not count. *)
Lemma TrimRight_snoc (s cutset : string) (c : ascii) :
  inCutset c cutset = true ->
  TrimRight (s +:+ String c EmptyString) cutset = TrimRight s cutset.
Proof.
  intros Hc. induction s as [|a s IH]; cbn.
  - rewrite Hc. reflexivity.
  - rewrite IH. reflexivity.
Qed.

(** A string that trimming leaves alone is empty or starts outside the
    cutset and is left alone by [TrimRight]. *)
Lemma Trim_fixed (s cutset : string) :
  Trim s cutset = s ->
  s = EmptyString
  \/ (exists c s', s = String c s' /\ inCutset c cutset = false)
     /\ TrimRight s cutset = s.
Proof.
  unfold Trim. destruct s as [|c s]; [left; reflexivity|]. intros H. right.
  cbn [TrimLeft] in H. destruct (inCutset c cutset) eqn:Hc.
  - exfalso. apply (f_equal String.length) in H.
    pose proof (length_TrimRight (TrimLeft s cutset) cutset).
    pose proof (length_TrimLeft s cutset). cbn in H. lia.
  - split; [exists c, s; auto | exact H].
Qed.

End TrimFacts.

(** X17: stripping the angle brackets of
    a content identifier written [<X>] gives back [X], for every [X] that
    does not itself begin or end with an angle bracket; so such a part is
    the one a reference to [X] selects. *)
Theorem Trim_removes_the_angle_brackets (X : string) :
  Trim X "<>" = X ->
  Trim ("<" +:+ X +:+ ">") "<>" = X.
Proof.
  intros Hfix. destruct (Trim_fixed X "<>" Hfix) as [->|[(c & s' & -> & Hc) Hright]].
  - reflexivity.
  - unfold Trim.
    change ("<" +:+ String c s' +:+ ">") with (String "<" (String c (s' +:+ ">"))).
    cbn [TrimLeft inCutset Ascii.eqb Bool.eqb orb]. cbn [inCutset] in Hc.
    change (inCutset "<" "<>") with true. cbv iota.
    cbn [TrimLeft]. cbn [inCutset]. rewrite Hc.
    change (String c (s' +:+ ">")) with (String c s' +:+ ">").
    rewrite TrimRight_snoc by reflexivity. exact Hright.
Qed.

Lemma Trim_removes_the_angle_brackets_witness :
  Trim "<part1@example.com>" "<>" = "part1@example.com".
Proof. apply (Trim_removes_the_angle_brackets "part1@example.com"). reflexivity. Defined.

Section Attachments.
Context `{L : Libs}.

Lemma attachments_not_SOAP (next : list Part) :
  Forall (fun p => Handler.isSOAPPart (Handler.ContentType p) = false) (attachments next).
Proof.
  induction next as [|part next IH]; cbn; [constructor|].
  destruct (PartBody part); [|exact IH].
  destruct (Handler.isSOAPPart _) eqn:Hs; [exact IH|].
  constructor; [exact Hs | exact IH].
Qed.

End Attachments.

(** X18: a part whose content type mentions
    [application/xop+xml], [text/xml] or [application/soap+xml] anywhere is
    taken as the control part and never kept as an attachment, so the
    attachments a reference can resolve to are exactly the other parts, in
    original order. *)
Theorem xml_parts_are_never_attachments {L : Libs} (r : Request) (next : list Part)
    (parts : list Handler.MultipartPart) (soapPart : string) :
  parsesTo r next parts soapPart ->
  parts = attachments next
  /\ Forall (fun p => Contains (Handler.ContentType p) "application/xop+xml" = false
                      /\ Contains (Handler.ContentType p) "text/xml" = false
                      /\ Contains (Handler.ContentType p) "application/soap+xml" = false)
       parts.
Proof.
  intros (? & ? & ? & ? & final & _ & _ & _ & _ & Hloop).
  apply readParts_attachments in Hloop. cbn [app] in Hloop. subst parts.
  split; [reflexivity|].
  eapply Forall_impl; [apply attachments_not_SOAP|].
  intros p Hp. unfold Handler.isSOAPPart in Hp.
  apply orb_false_iff in Hp as [Hp H3]. apply orb_false_iff in Hp as [H1 H2]. auto.
Qed.

Lemma xml_parts_are_never_attachments_witness :
  let L := Sample.libs "1" "a.txt" (Sample.includeText "att1")
             [Sample.part "<root>" "application/xop+xml" "x";
              Sample.part "<att1>" "text/xml; charset=utf-8" "<a/>";
              Sample.part "<att2>" "application/octet-stream" "hello"] in
  exists parts soapPart,
    parsesTo (Sample.post Sample.mtomHeaders Sample.multipartBody)
      [Sample.part "<root>" "application/xop+xml" "x";
       Sample.part "<att1>" "text/xml; charset=utf-8" "<a/>";
       Sample.part "<att2>" "application/octet-stream" "hello"] parts soapPart
    /\ soapPart = "<a/>"
    /\ Forall (fun p => Contains (Handler.ContentType p) "text/xml" = false) parts.
Proof.
  intros L.
  assert (H : parsesTo (Sample.post Sample.mtomHeaders Sample.multipartBody)
                [Sample.part "<root>" "application/xop+xml" "x";
                 Sample.part "<att1>" "text/xml; charset=utf-8" "<a/>";
                 Sample.part "<att2>" "application/octet-stream" "hello"]
                [Handler.mkMultipartPart "att2" "application/octet-stream"
                   (bytes_of_string "hello")] "<a/>").
  { exists "multipart/related", {[ "boundary" := "MIME_boundary" ]}, "MIME_boundary",
      (bytes_of_string Sample.multipartBody), None.
    repeat split; reflexivity. }
  eexists _, _. split; [exact H|]. split; [reflexivity|].
  eapply Forall_impl;
    [exact (proj2 (xml_parts_are_never_attachments (L := L) _ _ _ _ H))|].
  intros p (_ & Hp & _). exact Hp.
Defined.

(** X19: when the multipart parser has accepted the request, the decoded
    control part names a file and its [fileData] text holds an include
    marker naming [X] (the markup sent as character data, not as child
    element), the first attachment named [X] is not empty and the file
    system reports no error, [UploadFileMTOM] stores the attachment's bytes
    as they are under the path of the upload and answers with their
    number. *)
Theorem MTOM_upload_stores_the_attachment {L : Libs} (env : Env) (dir : string)
    (w : ResponseWriter) (r : Request) (s : World) (next : list Part)
    (parts : list Handler.MultipartPart) (soapPart fileName X : string)
    (before after : list Handler.MultipartPart) (p : Handler.MultipartPart) :
  HasPrefix (Header_Get (ReqHeader r) "Content-Type") "multipart/related" = true ->
  parsesTo r next parts soapPart ->
  textReferences soapPart fileName X ->
  attachments next = before ++ p :: after ->
  Handler.ContentID p = X ->
  Forall (fun q => Handler.ContentID q <> X) before ->
  fileName <> EmptyString ->
  Handler.Data p <> [] ->
  MkdirAll_error env = None ->
  WriteFile_error env = None ->
  Handler.UploadFileMTOM env dir w r s
  = (Handler.sendSOAPResponse w "UploadFileMTOMResponse"
       (Handler.BodyUploadFileMTOM
          (Handler.mkUploadFileMTOMResponse (uuid_New env) fileName
             (length (Handler.Data p))
             ("/uploads/" +:+ uuid_New env +:+ "_" +:+ Handler.sanitizeFileName fileName))),
     mkWorld (userDB s) ({[dir]} ∪ dirs s)
       (<[storedPath env dir fileName := Handler.Data p]> (files s))).
Proof.
  intros Hct Hparsed Htext Hsplit Hp Hbefore Hname Hdata Hmk Hwr.
  pose proof (parseMTOMSOAPEnvelope_text soapPart fileName X Htext) as Hrefs.
  unfold Handler.UploadFileMTOM. rewrite Hct.
  rewrite (parseMTOMRequest_first_match r next parts soapPart fileName X before after p
             Hparsed Hrefs Hsplit Hp Hbefore).
  destruct (Handler.Data p) as [|x data] eqn:Hd; [contradiction Hdata; reflexivity|].
  cbn [length Nat.eqb]. apply String.eqb_neq in Hname. rewrite Hname.
  unfold Handler.storeUpload, MkdirAll, WriteFile, storedPath.
  rewrite Hmk, Hwr. reflexivity.
Qed.

Lemma MTOM_upload_stores_the_attachment_witness :
  let L := Sample.libs "1" "a.txt" (Sample.includeText "att1")
             [Sample.part "<root>" "application/xop+xml" "x";
              Sample.part "<att1>" "application/octet-stream" "hello"] in
  let r := Sample.post Sample.mtomHeaders Sample.multipartBody in
  files (snd (Handler.UploadFileMTOM Sample.env Main.uploadDir newResponseWriter r
                initial_World))
    !! storedPath Sample.env Main.uploadDir "a.txt" = Some (bytes_of_string "hello").
Proof.
  intros L r.
  rewrite (MTOM_upload_stores_the_attachment (L := L) Sample.env Main.uploadDir
             newResponseWriter r initial_World
             [Sample.part "<root>" "application/xop+xml" "x";
              Sample.part "<att1>" "application/octet-stream" "hello"]
             [Handler.mkMultipartPart "att1" "application/octet-stream"
                (bytes_of_string "hello")]
             "x" "a.txt" "att1" [] []
             (Handler.mkMultipartPart "att1" "application/octet-stream"
                (bytes_of_string "hello")));
    try reflexivity; try discriminate; try constructor;
    try apply Sample_textReferences.
  exists "multipart/related", {[ "boundary" := "MIME_boundary" ]}, "MIME_boundary",
    (bytes_of_string Sample.multipartBody), None.
  repeat split; reflexivity.
Defined.

(** X24: when the multipart parser has accepted the request and the decoded
    text of the control part's [fileData] field holds an include marker
    naming [X] (the markup sent as character data, not as child element)
    while no attachment part has [X] as its identifier, the resolution fails
    with [XOP reference not found: X], which the handler reports as a
    Client fault; nothing is stored. *)
Theorem unresolved_text_reference {L : Libs} (env : Env) (dir : string)
    (w : ResponseWriter) (r : Request) (s : World) (next : list Part)
    (parts : list Handler.MultipartPart) (soapPart fileName X : string) :
  HasPrefix (Header_Get (ReqHeader r) "Content-Type") "multipart/related" = true ->
  parsesTo r next parts soapPart ->
  textReferences soapPart fileName X ->
  (forall p, In p (attachments next) -> Handler.ContentID p <> X) ->
  Handler.parseMTOMRequest r = Err ("XOP reference not found: " +:+ X)
  /\ Handler.UploadFileMTOM env dir w r s
     = (Handler.sendSOAPError w "Client" "Invalid MTOM request"
          ("XOP reference not found: " +:+ X), s).
Proof.
  intros Hct Hparsed Htext Hnone.
  pose proof (parseMTOMSOAPEnvelope_text soapPart fileName X Htext) as Hrefs.
  assert (Herr : Handler.parseMTOMRequest r = Err ("XOP reference not found: " +:+ X)).
  { rewrite (parseMTOMRequest_parsed r next parts soapPart Hparsed), Hrefs.
    destruct Hparsed as (? & ? & ? & ? & final & _ & _ & _ & _ & Hloop).
    apply readParts_attachments in Hloop. cbn [app] in Hloop. subst parts.
    cbn [Handler.resolveRefs]. rewrite (findPart_None _ _ Hnone). reflexivity. }
  split; [exact Herr|]. apply UploadFileMTOM_parse_error; assumption.
Qed.

Lemma unresolved_text_reference_witness :
  let L := Sample.libs "1" "a.txt" (Sample.includeText "att1")
             [Sample.part "<root>" "application/xop+xml" "x";
              Sample.part "<att2>" "application/octet-stream" "zzz"] in
  let r := Sample.post Sample.mtomHeaders Sample.multipartBody in
  Handler.parseMTOMRequest r = Err "XOP reference not found: att1".
Proof.
  intros L r.
  refine (proj1 (unresolved_text_reference (L := L) Sample.env Main.uploadDir
            newResponseWriter r initial_World
            [Sample.part "<root>" "application/xop+xml" "x";
             Sample.part "<att2>" "application/octet-stream" "zzz"]
            [Handler.mkMultipartPart "att2" "application/octet-stream" (bytes_of_string "zzz")]
            "x" "a.txt" "att1" _ _ (Sample_textReferences _) _)).
  - reflexivity.
  - exists "multipart/related", {[ "boundary" := "MIME_boundary" ]}, "MIME_boundary",
      (bytes_of_string Sample.multipartBody), None.
    repeat split; reflexivity.
  - intros p [<-|[]]. vm_compute. discriminate.
Defined.

(** *** The base64 decoder *)

Module Base64More.
Import Base64.
Local Open Scope Z_scope.

Lemma isNewline_invalid (c : ascii) : isNewline c = true -> decodeMap c = 0xFF.
Proof.
  unfold isNewline. intros H. apply orb_true_iff in H as [H|H];
    apply Ascii.eqb_eq in H; subst c; reflexivity.
Qed.

Lemma stripNewlines_idem (s : string) : stripNewlines (stripNewlines s) = stripNewlines s.
Proof.
  induction s as [|c s IH]; cbn; [reflexivity|].
  destruct (isNewline c) eqn:Hc; [exact IH|]. cbn. rewrite Hc, IH. reflexivity.
Qed.

(** What [skipNewlines] stops at. *)
Lemma skipNewlines_spec (s : string) :
  forall si,
    match fst (skipNewlines s si) with
    | EmptyString => stripNewlines s = EmptyString
    | String c t => isNewline c = false /\ stripNewlines s = String c (stripNewlines t)
    end.
Proof.
  induction s as [|c s IH]; intros si; cbn; [reflexivity|].
  destruct (isNewline c) eqn:Hc; [apply IH|]. cbn. split; [exact Hc|reflexivity].
Qed.

Lemma value_afterPadding (s : string) (si : nat) (d : dbuf) (j : nat) :
  value (afterPadding s si d j)
  = match stripNewlines s with
    | EmptyString => Some (quantum_bytes d j)
    | String _ _ => None
    end.
Proof.
  unfold afterPadding. pose proof (skipNewlines_spec s si) as H.
  destruct (skipNewlines s si) as [[|c t] si']; cbn [fst] in H.
  - rewrite H. reflexivity.
  - destruct H as [_ ->]. reflexivity.
Qed.

(** The second padding character of a quantum of two values. *)
Lemma value_padding2 (s : string) (si : nat) (d : dbuf) :
  value (match skipNewlines s si with
         | (EmptyString, si) => Err (CorruptInputError si)
         | (String c2 rest2, si) =>
             if negb (Ascii.eqb c2 padChar) then Err (CorruptInputError (si - 1))
             else afterPadding rest2 (S si) d 2
         end)
  = match stripNewlines s with
    | String c2 EmptyString =>
        if Ascii.eqb c2 padChar then Some (quantum_bytes d 2) else None
    | _ => None
    end.
Proof.
  pose proof (skipNewlines_spec s si) as H.
  destruct (skipNewlines s si) as [[|c2 rest2] si']; cbn [fst] in H.
  - rewrite H. reflexivity.
  - destruct H as [_ ->]. destruct (Ascii.eqb c2 padChar); cbn [negb].
    + rewrite value_afterPadding. destruct (stripNewlines rest2); reflexivity.
    + destruct (stripNewlines rest2); reflexivity.
Qed.

Lemma value_bind {A B} (r1 r2 : res A) (f : A -> B) :
  value r1 = value r2 ->
  value (bind r1 (fun a => Ok (f a))) = value (bind r2 (fun a => Ok (f a))).
Proof. destruct r1, r2; cbn; intros H; congruence. Qed.

(** Newlines and input offsets have no influence on what is decoded. *)
Lemma value_decodeFrom_stripNewlines (s : string) :
  forall si si' j d,
    value (decodeFrom (stripNewlines s) si' j d) = value (decodeFrom s si j d).
Proof.
  induction s as [|c s IH]; intros si si' j d.
  - cbn. destruct j; reflexivity.
  - cbn [stripNewlines]. destruct (isNewline c) eqn:Hnl.
    + cbn [decodeFrom]. rewrite (isNewline_invalid c Hnl), Hnl. cbn [Z.eqb negb].
      change (255 =? 255) with true. cbn [negb]. apply IH.
    + cbn [decodeFrom]. rewrite Hnl.
      destruct (negb (decodeMap c =? 255)).
      * destruct j as [|[|[|[|j]]]]; try apply IH. apply value_bind, IH.
      * destruct (negb (Ascii.eqb c padChar)); [reflexivity|].
        destruct j as [|[|[|j]]]; try reflexivity.
        -- rewrite !value_padding2, stripNewlines_idem. reflexivity.
        -- rewrite !value_afterPadding, stripNewlines_idem. reflexivity.
Qed.

Lemma length_quantum_bytes (d : dbuf) (dlen : nat) :
  length (quantum_bytes d dlen) = match dlen with
                                  | 2%nat => 1%nat
                                  | 3%nat => 2%nat
                                  | 4%nat => 3%nat
                                  | _ => 0%nat
                                  end.
Proof.
  unfold quantum_bytes. destruct d as [[[d0 d1] d2] d3].
  destruct dlen as [|[|[|[|[|n]]]]]; reflexivity.
Qed.

Lemma afterPadding_Ok (s : string) (si : nat) (d : dbuf) (j : nat) (b : list byte) :
  afterPadding s si d j = Ok b -> b = quantum_bytes d j.
Proof.
  unfold afterPadding. destruct (skipNewlines s si) as [[|c t] si']; [|discriminate].
  intros [= <-]. reflexivity.
Qed.

(** Four characters are consumed for every three bytes produced. *)
Lemma length_decodeFrom (s : string) :
  forall si j d b,
    (j <= 3)%nat ->
    decodeFrom s si j d = Ok b ->
    (4 * length b <= 3 * (String.length s + j))%nat.
Proof.
  induction s as [|c s IH]; intros si j d b Hj H.
  - cbn in H. destruct j; [|discriminate H]. injection H as <-. cbn. lia.
  - cbn [decodeFrom] in H. cbn [String.length].
    destruct (negb (decodeMap c =? 255)).
    + destruct j as [|[|[|[|j]]]]; try lia.
      * apply IH in H; lia.
      * apply IH in H; lia.
      * apply IH in H; lia.
      * destruct (decodeFrom s (S si) 0 dbuf0) as [tl|e] eqn:Htl; [|discriminate H].
        cbn [bind] in H. injection H as <-. apply IH in Htl; [|lia].
        rewrite length_app, length_quantum_bytes. lia.
    + destruct (isNewline c); [apply IH in H; lia|].
      destruct (negb (Ascii.eqb c padChar)); [discriminate H|].
      destruct j as [|[|[|j]]]; try discriminate H.
      * destruct (skipNewlines s (S si)) as [[|c2 rest2] si2]; [discriminate H|].
        destruct (negb (Ascii.eqb c2 padChar)); [discriminate H|].
        apply afterPadding_Ok in H. subst b. rewrite length_quantum_bytes. lia.
      * apply afterPadding_Ok in H. subst b. rewrite length_quantum_bytes.
        destruct j as [|[|j]]; lia.
Qed.

End Base64More.

(** X20: line feeds and carriage returns in base64
    text are ignored wherever they stand: the text decodes exactly when the
    text without them does, and to the same bytes. *)
Theorem base64_ignores_newlines (s : string) :
  value (Base64.DecodeString s) = value (Base64.DecodeString (stripNewlines s)).
Proof.
  unfold Base64.DecodeString. symmetry.
  apply Base64More.value_decodeFrom_stripNewlines.
Qed.

(** X21: decoded data is never longer than three
    quarters of the text it is decoded from. *)
Theorem base64_decoded_length (s : string) (b : list byte) :
  Base64.DecodeString s = Ok b ->
  4 * length b <= 3 * String.length s.
Proof.
  intros H. apply Base64More.length_decodeFrom in H; lia.
Qed.

Lemma base64_decoded_length_witness :
  4 * length (bytes_of_string "hello") <= 3 * String.length "aGVsbG8=".
Proof. apply base64_decoded_length. reflexivity. Defined.

Module Base64Shape.
Import Base64 Base64More.
Local Open Scope Z_scope.

Lemma valid_not_newline (c : ascii) :
  negb (decodeMap c =? 255) = true -> isNewline c = false.
Proof.
  intros H. destruct (isNewline c) eqn:Hc; [|reflexivity].
  rewrite (isNewline_invalid c Hc) in H. discriminate H.
Qed.

Lemma afterPadding_stripped (s : string) (si : nat) (d : dbuf) (j : nat) (b : list byte) :
  afterPadding s si d j = Ok b -> stripNewlines s = EmptyString.
Proof.
  intros H. pose proof (value_afterPadding s si d j) as Hv. rewrite H in Hv.
  destruct (stripNewlines s); [reflexivity|discriminate Hv].
Qed.

Lemma padding2_stripped (s : string) (si : nat) (d : dbuf) (b : list byte) :
  match skipNewlines s si with
  | (EmptyString, si) => Err (CorruptInputError si)
  | (String c2 rest2, si) =>
      if negb (Ascii.eqb c2 padChar) then Err (CorruptInputError (si - 1))
      else afterPadding rest2 (S si) d 2
  end = Ok b ->
  stripNewlines s = String padChar EmptyString.
Proof.
  intros H. pose proof (value_padding2 s si d) as Hv. rewrite H in Hv.
  destruct (stripNewlines s) as [|c2 [|c3 t]]; try discriminate Hv.
  destruct (Ascii.eqb c2 padChar) eqn:He; [|discriminate Hv].
  apply Ascii.eqb_eq in He. subst c2. reflexivity.
Qed.

(** Text that decodes consists of whole quanta of four characters. *)
Lemma quanta_decodeFrom (s : string) :
  forall si j d b,
    (j <= 3)%nat ->
    decodeFrom s si j d = Ok b ->
    exists k, (String.length (stripNewlines s) + j = 4 * k)%nat.
Proof.
  induction s as [|c s IH]; intros si j d b Hj H.
  - cbn in H. destruct j; [|discriminate H]. exists 0%nat. reflexivity.
  - cbn [decodeFrom] in H. cbn [stripNewlines].
    destruct (negb (decodeMap c =? 255)) eqn:Hvalid.
    + rewrite (valid_not_newline c Hvalid). cbn [String.length].
      destruct j as [|[|[|[|j]]]]; try lia.
      * apply IH in H as [k Hk]; [exists k|]; lia.
      * apply IH in H as [k Hk]; [exists k|]; lia.
      * apply IH in H as [k Hk]; [exists k|]; lia.
      * destruct (decodeFrom s (S si) 0 dbuf0) as [tl|e] eqn:Htl; [|discriminate H].
        apply IH in Htl as [k Hk]; [exists (S k)|]; lia.
    + destruct (isNewline c) eqn:Hnl; [apply IH in H; assumption|].
      cbn [String.length].
      destruct (negb (Ascii.eqb c padChar)); [discriminate H|].
      destruct j as [|[|[|j]]]; try discriminate H.
      * apply padding2_stripped in H. rewrite H. exists 1%nat. reflexivity.
      * apply afterPadding_stripped in H. rewrite H. exists 1%nat. cbn. lia.
Qed.

Lemma allChars_stripped (s : string) (t : string) :
  stripNewlines s = t -> allChars base64Char t = true -> allChars base64Char s = true.
Proof.
  revert t. induction s as [|c s IH]; intros t Hs Ht; [reflexivity|].
  cbn [stripNewlines] in Hs. cbn [allChars].
  destruct (isNewline c) eqn:Hnl.
  - unfold base64Char at 1. rewrite Hnl, orb_true_r. apply (IH t Hs Ht).
  - subst t. cbn [allChars] in Ht. apply andb_true_iff in Ht as [Hc Ht].
    rewrite Hc. apply (IH _ eq_refl Ht).
Qed.

(** Text that decodes holds no character outside the alphabet, the padding
    character and the newlines. *)
Lemma chars_decodeFrom (s : string) :
  forall si j d b, decodeFrom s si j d = Ok b -> allChars base64Char s = true.
Proof.
  induction s as [|c s IH]; intros si j d b H; [reflexivity|].
  cbn [decodeFrom] in H. cbn [allChars]. unfold base64Char at 1.
  destruct (negb (decodeMap c =? 255)) eqn:Hvalid.
  - cbn [orb andb]. destruct j as [|[|[|[|j]]]]; try (apply IH in H; exact H).
    destruct (decodeFrom s (S si) 0 dbuf0) as [tl|e] eqn:Htl; [|discriminate H].
    apply IH in Htl. exact Htl.
  - destruct (isNewline c) eqn:Hnl.
    + rewrite orb_true_r. cbn [andb]. apply IH in H. exact H.
    + destruct (Ascii.eqb c padChar) eqn:Hpad; [|discriminate H].
      cbn [negb orb andb] in H |- *.
      destruct j as [|[|[|j]]]; try discriminate H.
      * apply padding2_stripped in H. apply (allChars_stripped s _ H). reflexivity.
      * apply afterPadding_stripped in H. apply (allChars_stripped s _ H). reflexivity.
Qed.

End Base64Shape.

(** X22: base64 text that decodes consists,
    newlines apart, of whole groups of four characters, and holds no
    character other than those of the alphabet, the padding character and
    the newlines; unpadded text and text with any other character is
    refused. *)
Theorem base64_accepts_only_padded_text (s : string) (b : list byte) :
  Base64.DecodeString s = Ok b ->
  (exists k, String.length (stripNewlines s) = 4 * k)
  /\ allChars base64Char s = true.
Proof.
  intros H. split.
  - destruct (Base64Shape.quanta_decodeFrom s 0 0 Base64.dbuf0 b (Nat.le_0_l 3) H)
      as [k Hk].
    exists k. lia.
  - apply (Base64Shape.chars_decodeFrom s 0 0 Base64.dbuf0 b H).
Qed.

Lemma base64_accepts_only_padded_text_witness :
  (exists k, String.length (stripNewlines ("aGVs" +:+ nl +:+ "bG8=")) = 4 * k)
  /\ allChars base64Char ("aGVs" +:+ nl +:+ "bG8=") = true.
Proof.
  apply (base64_accepts_only_padded_text _ (bytes_of_string "hello")). reflexivity.
Defined.

(** *** The fault envelope *)

Section FaultText.

Lemma HasPrefix_refl (t : string) : HasPrefix t t = true.
Proof. induction t as [|a t IH]; cbn; [reflexivity|]. rewrite Ascii.eqb_refl. exact IH. Qed.

Lemma HasPrefix_app (t : string) :
  forall s b, HasPrefix s t = true -> HasPrefix (s +:+ b) t = true.
Proof.
  induction t as [|a t IH]; intros s b H; [reflexivity|].
  destruct s as [|c s]; [discriminate H|]. cbn in H |- *.
  apply andb_true_iff in H as [Hac Hs]. rewrite Hac, (IH s b Hs). reflexivity.
Qed.

Lemma Contains_app_right (s b t : string) :
  Contains s t = true -> Contains (s +:+ b) t = true.
Proof.
  induction s as [|c s IH]; cbn [Contains]; intros H.
  - rewrite orb_false_r in H. apply Contains_prefix.
    apply (HasPrefix_app t EmptyString b H).
  - apply orb_true_iff in H as [H|H].
    + apply Contains_prefix. apply (HasPrefix_app t (String c s) b H).
    + cbn [String.append]. apply Contains_cons, IH, H.
Qed.

Lemma Contains_app_left (a s t : string) :
  Contains s t = true -> Contains (a +:+ s) t = true.
Proof.
  intros H. induction a as [|c a IH]; cbn [String.append]; [exact H|].
  apply Contains_cons, IH.
Qed.

End FaultText.

(** X23: the fault envelope carries the three fields
    exactly as they are given, each between its own tags; the texts are not
    escaped, so markup in a detail reaches the response verbatim. *)
Theorem fault_envelope_fields (faultCode faultString detail : string) :
  Contains (Handler.faultEnvelope faultCode faultString detail)
    ("<faultcode>" +:+ faultCode +:+ "</faultcode>") = true
  /\ Contains (Handler.faultEnvelope faultCode faultString detail)
       ("<faultstring>" +:+ faultString +:+ "</faultstring>") = true
  /\ Contains (Handler.faultEnvelope faultCode faultString detail)
       ("<detail>" +:+ detail +:+ "</detail>") = true.
Proof.
  unfold Handler.faultEnvelope. cbn [String.concat].
  repeat split.
  - do 8 apply Contains_app_left. apply Contains_app_right.
    cbn [String.append]. do 12 apply Contains_cons.
    apply Contains_prefix, HasPrefix_refl.
  - do 10 apply Contains_app_left. apply Contains_app_right.
    cbn [String.append]. do 12 apply Contains_cons.
    apply Contains_prefix, HasPrefix_refl.
  - do 12 apply Contains_app_left. apply Contains_app_right.
    cbn [String.append]. do 12 apply Contains_cons.
    apply Contains_prefix, HasPrefix_refl.
Qed.
